(** * GetAltsClient: a shallow embedding of [getaltsclient/client.py]

    The client talks to a remote SMS-activation service.  Its operations are
    asynchronous Python methods which perform one HTTP request each, decode a
    JSON answer and (for the lifecycle operations) mutate a caller-owned
    [ActivationContext] object in place.

    The embedding keeps that shape:
    - decoded JSON is a tree of Python values ([pyval]), dictionaries being
      insertion-ordered association lists;
    - the enumerations are inductive types with their [value] tables, and
      [Enum.__call__] is a search through the members in definition order;
    - objects live in a heap addressed by references, so that "the same
      context, mutated" can be told from "a fresh context";
    - the wall clock and the remote service are oracles held by the world;
      every request, sleep, log record and callback invocation is appended to
      a trace;
    - Python exceptions are the [Raise] results of a state-and-error monad. *)

From Stdlib Require Import ZArith Lia Ascii String List Bool.
From Stdlib Require Import Floats.SpecFloat.
From stdpp Require Import base option list strings.

Import ListNotations.
Local Open Scope string_scope.
Local Open Scope Z_scope.
Local Open Scope list_scope.
Local Set Warnings "-register-all".

(** ** Python values

    The values [json.loads] can return.  The client builds no others, and
    it stores what it finds in a response in the context's fields without
    checking its type. *)

Inductive pyval : Type :=
| PNone
| PBool (b : bool)
| PInt (n : Z)
| PFloat (f : spec_float)
| PStr (s : string)
| PList (l : list pyval)
| PDict (d : list (string * pyval)).

(** *** Dictionaries

    A [dict] keeps its items in insertion order; assigning to an existing key
    keeps the key's position, so the dictionaries built here have one item
    per key and a lookup returns the first item with the key. *)

Section Dict.
Context {K V : Type} `{EqDecision K}.

Fixpoint dict_lookup (k : K) (d : list (K * V)) : option V :=
  match d with
  | [] => None
  | (k', v) :: d' => if decide (k' = k) then Some v else dict_lookup k d'
  end.

(** [k in d] *)
Definition dict_mem (k : K) (d : list (K * V)) : bool :=
  match dict_lookup k d with Some _ => true | None => false end.

(** [d[k] = v] *)
Fixpoint dict_set (k : K) (v : V) (d : list (K * V)) : list (K * V) :=
  match d with
  | [] => [(k, v)]
  | (k', v') :: d' =>
      if decide (k' = k) then (k', v) :: d' else (k', v') :: dict_set k v d'
  end.

(** [d.get(k, default)] *)
Definition dict_get (k : K) (default : V) (d : list (K * V)) : V :=
  match dict_lookup k d with Some v => v | None => default end.
End Dict.

(** ** Enumerations *)

Inductive Service : Type :=
| Microsoft | Google | GMail | Yahoo | LinkedIN | Uber | WeChat | Instagram
| LineMessenger | Telegram | VkCom | YouTube | Facebook | Steam | Yandex
| Whatsapp | Tinder | Twitter | AnyOther.

Inductive Country : Type :=
| Russia | Ukraine | Kazakhstan | China | Philippines | Myanmar | Indonesia
| Malaysia | Kenya | Tanzania | Vietnam | Kyrgyzstan | USA | Israel | HongKong
| Poland | UnitedKingdom | Madagascar | Congo | Nigeria | Macau | Egypt
| Ireland | Cambodia | Lao | Haiti | IvoryCoast | Gambia | Serbian | Yemen
| SouthAfrica | Romania | Estonia | Azerbaijan | Canada | Morocco | Ghana
| Argentina | Uzbekistan | Cameroon | Chad | Germany | Lithuania | Croatia
| Iraq | Netherlands | India.

Inductive Status : Type :=
| Ready | AccessReady | WaitingForCode | Cancelled | AccessConfirmGet | StatusOk.

Inductive _Action : Type :=
| SendSMS | Cancel | End_ | SendAnotherCode | AlreadyUsed.

(** A Python [Enum] class: the [value] of each member and the members in
    definition order. *)
Class PyEnum (E : Type) : Type := {
  value : E -> string;
  members : list E
}.

#[global] Instance Service_enum : PyEnum Service := {|
  value s :=
    match s with
    | Microsoft => "ms"
    | Google => "go"
    | GMail => "gm"
    | Yahoo => "yh"
    | LinkedIN => "ln"
    | Uber => "ub"
    | WeChat => "wc"
    | Instagram => "ig"
    | LineMessenger => "lm"
    | Telegram => "tg"
    | VkCom => "vk"
    | YouTube => "yt"
    | Facebook => "fb"
    | Steam => "st"
    | Yandex => "ya"
    | Whatsapp => "wp"
    | Tinder => "ti"
    | Twitter => "tw"
    | AnyOther => "ot"
    end;
  members :=
    [Microsoft; Google; GMail; Yahoo; LinkedIN; Uber; WeChat; Instagram;
     LineMessenger; Telegram; VkCom; YouTube; Facebook; Steam; Yandex;
     Whatsapp; Tinder; Twitter; AnyOther]
|}.

#[global] Instance Country_enum : PyEnum Country := {|
  value c :=
    match c with
    | Russia => "ru"
    | Ukraine => "ua"
    | Kazakhstan => "kz"
    | China => "cn"
    | Philippines => "ph"
    | Myanmar => "mm"
    | Indonesia => "id"
    | Malaysia => "my"
    | Kenya => "ke"
    | Tanzania => "tz"
    | Vietnam => "vn"
    | Kyrgyzstan => "kg"
    | USA => "us"
    | Israel => "il"
    | HongKong => "hk"
    | Poland => "pl"
    | UnitedKingdom => "uk"
    | Madagascar => "mg"
    | Congo => "cg"
    | Nigeria => "ng"
    | Macau => "mo"
    | Egypt => "eg"
    | Ireland => "ie"
    | Cambodia => "kh"
    | Lao => "la"
    | Haiti => "ht"
    | IvoryCoast => "ci"
    | Gambia => "gm"
    | Serbian => "rs"
    | Yemen => "ye"
    | SouthAfrica => "za"
    | Romania => "ro"
    | Estonia => "ee"
    | Azerbaijan => "az"
    | Canada => "ca"
    | Morocco => "ma"
    | Ghana => "gh"
    | Argentina => "ar"
    | Uzbekistan => "uz"
    | Cameroon => "cm"
    | Chad => "tg"
    | Germany => "de"
    | Lithuania => "lt"
    | Croatia => "hr"
    | Iraq => "iq"
    | Netherlands => "nl"
    | India => "in"
    end;
  members :=
    [Russia; Ukraine; Kazakhstan; China; Philippines; Myanmar; Indonesia;
     Malaysia; Kenya; Tanzania; Vietnam; Kyrgyzstan; USA; Israel; HongKong;
     Poland; UnitedKingdom; Madagascar; Congo; Nigeria; Macau; Egypt; Ireland;
     Cambodia; Lao; Haiti; IvoryCoast; Gambia; Serbian; Yemen; SouthAfrica;
     Romania; Estonia; Azerbaijan; Canada; Morocco; Ghana; Argentina;
     Uzbekistan; Cameroon; Chad; Germany; Lithuania; Croatia; Iraq;
     Netherlands; India]
|}.

#[global] Instance Status_enum : PyEnum Status := {|
  value s :=
    match s with
    | Ready => "READY"
    | AccessReady => "ACCESS_READY"
    | WaitingForCode => "STATUS_WAIT_CODE"
    | Cancelled => "ACCESS_CANCEL"
    | AccessConfirmGet => "ACCESS_CONFIRM_GET"
    | StatusOk => "STATUS_OK"
    end;
  members :=
    [Ready; AccessReady; WaitingForCode; Cancelled; AccessConfirmGet; StatusOk]
|}.

#[global] Instance _Action_enum : PyEnum _Action := {|
  value a :=
    match a with
    | SendSMS => "SMS_SENT"
    | Cancel => "CANCEL"
    | End_ => "END"
    | SendAnotherCode => "ONE_MORE_CODE"
    | AlreadyUsed => "ALREADY_USED"
    end;
  members := [SendSMS; Cancel; End_; SendAnotherCode; AlreadyUsed]
|}.

(** The member whose value is [s], searching in definition order (a later
    name with an already used value would be an alias of the earlier one). *)
Definition enum_of_value {E} `{PyEnum E} (s : string) : option E :=
  List.find (fun e => String.eqb (value e) s) members.

#[global] Instance Service_eq_dec : EqDecision Service.
Proof. solve_decision. Defined.
#[global] Instance Country_eq_dec : EqDecision Country.
Proof. solve_decision. Defined.
#[global] Instance Status_eq_dec : EqDecision Status.
Proof. solve_decision. Defined.
#[global] Instance _Action_eq_dec : EqDecision _Action.
Proof. solve_decision. Defined.

(** ** Objects, exceptions and the world *)

(** A reference to an [ActivationContext] object: its address in the heap. *)
Definition ref : Type := nat.

(** The dataclass.  Python does not enforce the annotations ([str], [int]),
    so the three fields filled from a response hold whatever it contained;
    [code = PNone] is [code is None]. *)
Record ActivationContext : Type := {
  phone_number : pyval;
  activation_id : pyval;
  status : Status;
  code : pyval
}.

(** What can go wrong below the JSON level: everything [aiohttp] and
    [json.loads] may raise inside [_get]. *)
Inductive transport_failure : Type :=
| ClientConnectionError
| ClientResponseError (http_status : Z)
| TimeoutError
| JSONDecodeError.

Inductive exn : Type :=
| GetAltsAPIError (arg : pyval)
| NoCodeReceived
| KeyError (key : string)
| ValueError (arg : pyval)
| TypeError
| AttributeError
| OverflowError
| TransportError (e : transport_failure)
| DanglingReference (r : ref).
(* [DanglingReference] has no Python counterpart: a Python reference always
   designates a live object.  It is the result of using an address outside
   the heap. *)

Record request : Type := {
  req_url : string;
  req_params : list (string * pyval);
  req_timeout : Z
}.

Inductive outcome : Type :=
| Failure (e : transport_failure)
| Body (result : pyval).

Inductive log_record : Type :=
| DebugMakingRequest (endpoint : string) (query_params : option (list (string * pyval)))
| DebugReceivedResponse (result : pyval)
| InfoCheckingActivationStatus
| InfoCancellingNotPossible.

Inductive event : Type :=
| EvLog (r : log_record)
| EvRequest (r : request)
| EvSleep (seconds : Z)
| EvCallback (awaited : bool) (context : ref).

(** The world a call runs in.  [clock k] is what the [k]-th call of
    [datetime.now()] returns, in microseconds since [datetime.min];
    [remote n] answers the [n]-th request.  Both are oracles: the client has
    no influence on them. *)
Record world : Type := {
  heap : list ActivationContext;
  clock : nat -> Z;
  ticks : nat;
  remote : nat -> request -> outcome;
  sent : nat;
  trace : list event
}.

Inductive result (A : Type) : Type :=
| Return (a : A)
| Raise (e : exn).
Arguments Return {A} a.
Arguments Raise {A} e.

(** State and exceptions. *)
Definition M (A : Type) : Type := world -> result A * world.

Definition ret {A} (a : A) : M A := fun w => (Return a, w).
Definition raise {A} (e : exn) : M A := fun w => (Raise e, w).
Definition bind {A B} (m : M A) (k : A -> M B) : M B :=
  fun w => match m w with
           | (Return a, w') => k a w'
           | (Raise e, w') => (Raise e, w')
           end.

Notation "'let*' x := m 'in' k" := (bind m (fun x => k))
  (at level 10, x name, m at level 100, k at level 200).
Notation "m ;; k" := (bind m (fun _ => k))
  (at level 100, k at level 200, right associativity).

Definition emit (e : event) : M unit :=
  fun w => (Return tt,
            {| heap := heap w; clock := clock w; ticks := ticks w;
               remote := remote w; sent := sent w; trace := trace w ++ [e] |}).

Definition log (r : log_record) : M unit := emit (EvLog r).

(** [await asyncio.sleep(seconds)] *)
Definition sleep (seconds : Z) : M unit := emit (EvSleep seconds).

(** [datetime.now()] *)
Definition datetime_now : M Z :=
  fun w => (Return (clock w (ticks w)),
            {| heap := heap w; clock := clock w; ticks := S (ticks w);
               remote := remote w; sent := sent w; trace := trace w |}).

(** [datetime.max], in microseconds since [datetime.min]
    (0001-01-01T00:00:00 to 9999-12-31T23:59:59.999999). *)
Definition datetime_max : Z := 3652059 * 86400 * 1000000 - 1.

(** [d + delta] for a [datetime] and a [timedelta] *)
Definition datetime_add (d delta : Z) : M Z :=
  let r := d + delta in
  if (0 <=? r) && (r <=? datetime_max) then ret r else raise OverflowError.

(** One round trip: [session.get], [raise_for_status], [response.text] and
    [json.loads] together. *)
Definition http_get (r : request) : M pyval :=
  fun w =>
    let w' := {| heap := heap w; clock := clock w; ticks := ticks w;
                 remote := remote w; sent := S (sent w);
                 trace := trace w ++ [EvRequest r] |} in
    match remote w (sent w) r with
    | Failure e => (Raise (TransportError e), w')
    | Body v => (Return v, w')
    end.

(** Attribute access on a context object. *)
Definition load (r : ref) : M ActivationContext :=
  fun w => match heap w !! r with
           | Some c => (Return c, w)
           | None => (Raise (DanglingReference r), w)
           end.

Definition store (r : ref) (f : ActivationContext -> ActivationContext) : M unit :=
  fun w => match heap w !! r with
           | Some c =>
               (Return tt,
                {| heap := <[r := f c]> (heap w); clock := clock w;
                   ticks := ticks w; remote := remote w; sent := sent w;
                   trace := trace w |})
           | None => (Raise (DanglingReference r), w)
           end.

(** The constructor call [ActivationContext(...)]: a fresh object. *)
Definition new (c : ActivationContext) : M ref :=
  fun w => (Return (length (heap w)),
            {| heap := heap w ++ [c]; clock := clock w; ticks := ticks w;
               remote := remote w; sent := sent w; trace := trace w |}).

(** ** Python operators used on decoded JSON *)

(** [obj[key]] for a string key *)
Definition py_getitem (obj : pyval) (key : string) : M pyval :=
  match obj with
  | PDict d =>
      match dict_lookup key d with
      | Some v => ret v
      | None => raise (KeyError key)
      end
  | _ => raise TypeError
  end.

Definition is_str (s : string) (v : pyval) : bool :=
  match v with PStr s' => String.eqb s' s | _ => false end.

Definition substring_of (s t : string) : bool :=
  match String.index 0 s t with Some _ => true | None => false end.

(** [key in obj] for a string key *)
Definition py_contains (key : string) (obj : pyval) : M bool :=
  match obj with
  | PDict d => ret (dict_mem key d)
  | PList l => ret (existsb (is_str key) l)
  | PStr s => ret (substring_of key s)
  | _ => raise TypeError
  end.

(** [obj.get(key, default)] *)
Definition py_get (obj : pyval) (key : string) (default : pyval) : M pyval :=
  match obj with
  | PDict d => ret (dict_get key default d)
  | _ => raise AttributeError
  end.

(** [obj.items()] *)
Definition py_items (obj : pyval) : M (list (string * pyval)) :=
  match obj with
  | PDict d => ret d
  | _ => raise AttributeError
  end.

(** [E(v)]: the member with value [v], or [ValueError]. *)
Definition enum_call {E} `{PyEnum E} (v : pyval) : M E :=
  match v with
  | PStr s =>
      match enum_of_value s with
      | Some e => ret e
      | None => raise (ValueError v)
      end
  | _ => raise (ValueError v)
  end.

Definition ascii_lower (c : ascii) : ascii :=
  let n := nat_of_ascii c in
  if (65 <=? n)%nat && (n <=? 90)%nat then ascii_of_nat (n + 32) else c.

(** [s.lower()], on the ASCII strings it is used for *)
Fixpoint lower (s : string) : string :=
  match s with
  | EmptyString => EmptyString
  | String c s' => String (ascii_lower c) (lower s')
  end.

(** [{E(k): v for k, v in items}] *)
Fixpoint enum_keyed {E} `{PyEnum E} `{EqDecision E}
    (items : list (string * pyval)) (acc : list (E * pyval)) : M (list (E * pyval)) :=
  match items with
  | [] => ret acc
  | (k, v) :: items' =>
      let* e := enum_call (PStr k) in
      enum_keyed items' (dict_set e v acc)
  end.

(** ** The client *)

Record GetAltsClient : Type := {
  token : string;
  timeout : Z
}.

Definition base_url : string := "http://getalts.club/api".

Definition _endpoint (name : string) : string :=
  String.append base_url (String.append "/" name).

(** [query_params or dict()] *)
Definition or_dict (query_params : option (list (string * pyval))) : list (string * pyval) :=
  match query_params with
  | Some (item :: d) => item :: d
  | _ => []
  end.

(** The request [_get] sends: the URL of the endpoint, the caller's
    parameters extended with the token, the client's timeout. *)
Definition request_for (self : GetAltsClient) (endpoint : string)
    (query_params : option (list (string * pyval))) : request :=
  let params := dict_set "token" (PStr (token self)) (or_dict query_params) in
  let url := _endpoint endpoint in
  {| req_url := url; req_params := params; req_timeout := timeout self |}.

Definition _get (self : GetAltsClient) (endpoint : string)
    (query_params : option (list (string * pyval))) : M pyval :=
  log (DebugMakingRequest endpoint query_params) ;;
  let* result := http_get (request_for self endpoint query_params) in
  let* has_error := py_contains "error" result in
  if has_error : bool then
    let* e := py_getitem result "error" in
    raise (GetAltsAPIError e)
  else
    log (DebugReceivedResponse result) ;;
    ret result.

Definition get_balance (self : GetAltsClient) : M pyval :=
  let* response := _get self "get_balance" None in
  py_getitem response "balance".

Definition get_available_numbers_count (self : GetAltsClient) (country : Country)
    : M (list (Service * pyval)) :=
  let* response := _get self "get_amount" (Some [("country", PStr (value country))]) in
  let* items := py_items response in
  enum_keyed items [].

Definition get_prices_by_country (self : GetAltsClient) (country : Country)
    : M (list (Service * pyval)) :=
  let* response :=
    _get self "get_prices_by_country" (Some [("country", PStr (value country))]) in
  let* items := py_items response in
  enum_keyed items [].

Definition get_prices_by_service (self : GetAltsClient) (service : Service)
    : M (list (Country * pyval)) :=
  let* response :=
    _get self "get_prices_by_service" (Some [("service", PStr (value service))]) in
  let* items := py_items response in
  enum_keyed items [].

(** [ActivationContext._from_dict]; [code] takes the dataclass default. *)
Definition _from_dict (data : pyval) : M ref :=
  let* p := py_getitem data "phone_number" in
  let* a := py_getitem data "activation_id" in
  let* s := py_getitem data "status" in
  let* st := enum_call s in
  new {| phone_number := p; activation_id := a; status := st; code := PNone |}.

Definition buy_number (self : GetAltsClient) (service : Service) (country : Country)
    : M ref :=
  let* response :=
    _get self "buy_number"
      (Some [("service", PStr (value service)); ("country", PStr (value country))]) in
  _from_dict response.

Definition set_status (st : Status) (c : ActivationContext) : ActivationContext :=
  {| phone_number := phone_number c; activation_id := activation_id c;
     status := st; code := code c |}.

Definition set_code (v : pyval) (c : ActivationContext) : ActivationContext :=
  {| phone_number := phone_number c; activation_id := activation_id c;
     status := status c; code := v |}.

Definition __context_from_response (old_context : ref) (response : pyval) : M ref :=
  let* s := py_getitem response "status" in
  let* st := enum_call s in
  store old_context (set_status st) ;;
  let* c := py_get response "code" PNone in
  store old_context (set_code c) ;;
  ret old_context.

Definition get_activation_status (self : GetAltsClient) (activation_context : ref)
    : M ref :=
  let* c := load activation_context in
  let* response :=
    _get self "get_activation_status" (Some [("activation_id", activation_id c)]) in
  __context_from_response activation_context response.

Definition _set_activation_status (self : GetAltsClient) (activation_context : ref)
    (new_status : _Action) : M ref :=
  let* c := load activation_context in
  let* response :=
    _get self "set_activation_status"
      (Some [("activation_id", activation_id c);
             ("status", PStr (lower (value new_status)))]) in
  __context_from_response activation_context response.

Definition set_ready_for_code (self : GetAltsClient) (activation_context : ref) : M ref :=
  _set_activation_status self activation_context SendSMS.

Definition end_activation (self : GetAltsClient) (activation_context : ref) : M ref :=
  _set_activation_status self activation_context End_.

Definition send_another_code (self : GetAltsClient) (activation_context : ref) : M ref :=
  _set_activation_status self activation_context SendAnotherCode.

Definition mark_number_as_already_used (self : GetAltsClient) (activation_context : ref)
    : M ref :=
  _set_activation_status self activation_context AlreadyUsed.

(** [try: ... except GetAltsAPIError: ...] *)
Definition cancel_activation (self : GetAltsClient) (activation_context : ref) : M ref :=
  fun w =>
    match _set_activation_status self activation_context Cancel w with
    | (Raise (GetAltsAPIError _), w') =>
        (log InfoCancellingNotPossible ;;
         mark_number_as_already_used self activation_context) w'
    | r => r
    end.

(** *** Waiting for the code *)

(** The caller's callback: a plain function or a coroutine function, which
    may do anything the monad allows. *)
Record callback : Type := {
  iscoroutinefunction : bool;
  call : ref -> M pyval
}.

Definition invoke (cb : callback) (context : ref) : M unit :=
  if iscoroutinefunction cb then
    emit (EvCallback true context) ;; call cb context ;; ret tt
  else
    emit (EvCallback false context) ;; call cb context ;; ret tt.

Inductive loop_exit : Type :=
| Break (context : ref)
| Continue (context : ref).

(** One turn of the [while True] loop. *)
Definition poll_once (self : GetAltsClient) (context : ref) (start max_wait : Z)
    : M loop_exit :=
  let* now := datetime_now in
  let* deadline := datetime_add start max_wait in
  if now >? deadline then raise NoCodeReceived
  else
    log InfoCheckingActivationStatus ;;
    let* context := get_activation_status self context in
    let* c := load context in
    match code c with
    | PNone => sleep 5 ;; ret (Continue context)
    | _ => ret (Break context)
    end.

(** The loop, with at most [fuel] turns; [None] when they do not suffice. *)
Fixpoint poll_until_code (fuel : nat) (self : GetAltsClient) (context : ref)
    (start max_wait : Z) (w : world) : option (result ref * world) :=
  match fuel with
  | O => None
  | S fuel' =>
      match poll_once self context start max_wait w with
      | (Return (Break context'), w') => Some (Return context', w')
      | (Return (Continue context'), w') =>
          poll_until_code fuel' self context' start max_wait w'
      | (Raise e, w') => Some (Raise e, w')
      end
  end.

(** [timedelta(minutes=1)], in microseconds *)
Definition default_max_wait : Z := 60 * 1000000.

Definition register_code_received_callback (fuel : nat) (self : GetAltsClient)
    (cb : callback) (for_context : ref) (max_wait : Z) (w : world)
    : option (result unit * world) :=
  let context := for_context in
  match datetime_now w with
  | (Return start, w0) =>
      match poll_until_code fuel self context start max_wait w0 with
      | None => None
      | Some (Return context', w1) => Some (invoke cb context' w1)
      | Some (Raise e, w1) => Some (Raise e, w1)
      end
  | (Raise e, w0) => Some (Raise e, w0)
  end.

(** The stub the class carries next to the wait: its body is [pass]. *)
Definition _notify_code_received (self : GetAltsClient) (cb : callback)
    (for_context : ref) : M unit :=
  ret tt.

(** ** Reading the trace *)

Fixpoint count_events (p : event -> bool) (t : list event) : nat :=
  match t with
  | [] => O
  | e :: t' => if p e then S (count_events p t') else count_events p t'
  end.

Definition is_request_to (endpoint : string) (e : event) : bool :=
  match e with
  | EvRequest r => String.eqb (req_url r) (_endpoint endpoint)
  | _ => false
  end.

(** Calls of [get_activation_status] that reached the remote service. *)
Definition polls (t : list event) : nat :=
  count_events (is_request_to "get_activation_status") t.

Definition is_sleep (e : event) : bool :=
  match e with EvSleep _ => true | _ => false end.

Definition sleeps (t : list event) : nat := count_events is_sleep t.

Definition is_callback (e : event) : bool :=
  match e with EvCallback _ _ => true | _ => false end.

Definition callbacks (t : list event) : nat := count_events is_callback t.

Definition is_status_request (a : _Action) (e : event) : bool :=
  match e with
  | EvRequest r =>
      String.eqb (req_url r) (_endpoint "set_activation_status")
      && match dict_lookup "status" (req_params r) with
         | Some (PStr s) => String.eqb s (lower (value a))
         | _ => false
         end
  | _ => false
  end.

(** Requests that ask the remote service for the transition [a]. *)
Definition status_requests (a : _Action) (t : list event) : nat :=
  count_events (is_status_request a) t.

(** ** Notions used in the statements *)

(** The context after a response with status [st] and code [v] has been
    merged into [c]: the two fields filled by the purchase are kept. *)
Definition merged (c : ActivationContext) (st : Status) (v : pyval) : ActivationContext :=
  {| phone_number := phone_number c; activation_id := activation_id c;
     status := st; code := v |}.

(** What [get_activation_status] and [_set_activation_status] both do once
    they have read the activation id: one request, then the merge of its
    answer into the context. *)
Definition exchange (self : GetAltsClient) (endpoint : string)
    (query_params : option (list (string * pyval))) (r : ref) : M ref :=
  let* response := _get self endpoint query_params in
  __context_from_response r response.

(** A decoded answer that is accepted and carries status [st] and code [v]
    ([v = PNone] when it has no "code" key, or a null one). *)
Definition successful_answer (d : list (string * pyval)) (st : Status) (v : pyval) : Prop :=
  dict_lookup "error" d = None /\
  (exists s, dict_lookup "status" d = Some (PStr s) /\ enum_of_value s = Some st) /\
  dict_get "code" PNone d = v.

(** The request of a status query for context [c]. *)
Definition status_query (self : GetAltsClient) (c : ActivationContext) : request :=
  request_for self "get_activation_status" (Some [("activation_id", activation_id c)]).

(** ** Scripted worlds, for the examples *)

(** A remote service that answers the [n]-th request with the [n]-th element
    of a script, and times out afterwards. *)
Definition scripted (answers : list outcome) : nat -> request -> outcome :=
  fun n _ => nth n answers (Failure TimeoutError).

(** A clock that returns the given readings in turn, then keeps the last. *)
Definition readings (l : list Z) : nat -> Z :=
  fun k => nth k l (List.last l 0).

Definition example_world (objects : list ActivationContext) (times : list Z)
    (answers : list outcome) : world :=
  {| heap := objects; clock := readings times; ticks := O;
     remote := scripted answers; sent := O; trace := [] |}.

Definition example_client : GetAltsClient := {| token := "t0ken"; timeout := 10 |}.

Definition example_context : ActivationContext :=
  {| phone_number := PStr "+79001234567"; activation_id := PInt 42;
     status := Ready; code := PInt 1111 |}.

(** A callback that does nothing. *)
Definition example_callback : callback :=
  {| iscoroutinefunction := false; call := fun _ => ret PNone |}.

(** Answers of the remote service. *)
Definition answer_waiting : list (string * pyval) :=
  [("status", PStr "STATUS_WAIT_CODE")].

Definition answer_code : list (string * pyval) :=
  [("status", PStr "STATUS_OK"); ("code", PInt 4711)].

Definition answer_rejected : list (string * pyval) :=
  [("error", PStr "NO_BALANCE")].

Definition answer_purchase : list (string * pyval) :=
  [("phone_number", PStr "+7900"); ("activation_id", PInt 42);
   ("status", PStr "READY")].

Definition answer_purchase_waiting : list (string * pyval) :=
  [("phone_number", PStr "+7900"); ("activation_id", PInt 42);
   ("status", PStr "STATUS_WAIT_CODE"); ("code", PInt 1234)].

(** Some instant of the year 2026, in microseconds since [datetime.min]. *)
Definition example_time : Z := 63900000000000000.

(** * Properties *)

(** ** Enumerations *)

Section EnumLookup.
Context {E : Type} `{PyEnum E}.

(** Whatever the lookup finds carries the value that was looked up. *)
Lemma enum_of_value_sound (s : string) (e : E) :
  enum_of_value s = Some e -> value e = s.
Proof.
  unfold enum_of_value. intros Hfind.
  apply find_some in Hfind as [_ Heq].
  now apply String.eqb_eq.
Qed.

(** A string no member has as its value is not found. *)
Lemma enum_of_value_unknown (s : string) :
  (forall e : E, value e <> s) -> enum_of_value s = None.
Proof.
  intros Hno. unfold enum_of_value.
  induction members as [|e l IH]; simpl; [reflexivity|].
  destruct (String.eqb_spec (value e) s) as [Heq|_]; [|exact IH].
  now destruct (Hno e).
Qed.

(** When every member is found under its own value, values are unique. *)
Lemma value_inj_of_complete :
  (forall e : E, enum_of_value (value e) = Some e) ->
  forall e1 e2 : E, value e1 = value e2 -> e1 = e2.
Proof.
  intros Hall e1 e2 Heq.
  pose proof (Hall e1) as H1. rewrite Heq, Hall in H1. congruence.
Qed.

Lemma enum_call_known (s : string) (e : E) (w : world) :
  enum_of_value s = Some e -> enum_call (PStr s) w = (Return e, w).
Proof. intros Hs. unfold enum_call. now rewrite Hs. Qed.

Lemma enum_call_unknown (s : string) (w : world) :
  enum_of_value s = None ->
  enum_call (E := E) (PStr s) w = (Raise (ValueError (PStr s)), w).
Proof. intros Hs. unfold enum_call. now rewrite Hs. Qed.

(** A call of the enumeration never changes the world, and fails on
    everything that is not a string. *)
Lemma enum_call_world (v : pyval) (w w' : world) (r : result E) :
  enum_call v w = (r, w') -> w' = w.
Proof.
  unfold enum_call.
  destruct v; try (intros [= _ <-]; reflexivity).
  destruct (enum_of_value s); intros [= _ <-]; reflexivity.
Qed.
End EnumLookup.

Lemma Service_complete (e : Service) : enum_of_value (value e) = Some e.
Proof. destruct e; reflexivity. Qed.

Lemma Country_complete (e : Country) : enum_of_value (value e) = Some e.
Proof. destruct e; reflexivity. Qed.

Lemma Status_complete (e : Status) : enum_of_value (value e) = Some e.
Proof. destruct e; reflexivity. Qed.

(** C7: for Service, Country and Status, encoding a member and decoding the
    result gives the member back, decoding a wire code and encoding the
    result gives the wire code back, and no two members share a wire code. *)
Theorem enum_round_trip :
  ((forall e : Service, enum_of_value (value e) = Some e) /\
   (forall (s : string) (e : Service), enum_of_value s = Some e -> value e = s) /\
   (forall e1 e2 : Service, value e1 = value e2 -> e1 = e2)) /\
  ((forall e : Country, enum_of_value (value e) = Some e) /\
   (forall (s : string) (e : Country), enum_of_value s = Some e -> value e = s) /\
   (forall e1 e2 : Country, value e1 = value e2 -> e1 = e2)) /\
  ((forall e : Status, enum_of_value (value e) = Some e) /\
   (forall (s : string) (e : Status), enum_of_value s = Some e -> value e = s) /\
   (forall e1 e2 : Status, value e1 = value e2 -> e1 = e2)).
Proof.
  repeat split.
  - apply Service_complete.
  - apply enum_of_value_sound.
  - apply value_inj_of_complete, Service_complete.
  - apply Country_complete.
  - apply enum_of_value_sound.
  - apply value_inj_of_complete, Country_complete.
  - apply Status_complete.
  - apply enum_of_value_sound.
  - apply value_inj_of_complete, Status_complete.
Qed.

(** The round trip used on the wire codes "tg", "ru" and "STATUS_OK". *)
Lemma enum_round_trip_witness :
  value Telegram = "tg" /\ value Russia = "ru" /\ value StatusOk = "STATUS_OK".
Proof.
  destruct enum_round_trip as [(_ & HS & _) [(_ & HC & _) (_ & HT & _)]].
  split; [|split].
  - apply (HS "tg" Telegram). reflexivity.
  - apply (HC "ru" Russia). reflexivity.
  - apply (HT "STATUS_OK" StatusOk). reflexivity.
Defined.

(** ** The monad *)

Lemma bind_Return {A B} (m : M A) (k : A -> M B) (w w' : world) (a : A) :
  m w = (Return a, w') -> bind m k w = k a w'.
Proof. intros Hm. unfold bind. now rewrite Hm. Qed.

Lemma bind_Raise {A B} (m : M A) (k : A -> M B) (w w' : world) (e : exn) :
  m w = (Raise e, w') -> bind m k w = (Raise e, w').
Proof. intros Hm. unfold bind. now rewrite Hm. Qed.

(** The operators on decoded JSON leave the world alone. *)
Lemma py_contains_world key obj (w w' : world) (r : result bool) :
  py_contains key obj w = (r, w') -> w' = w.
Proof. destruct obj; cbn; unfold ret, raise; congruence. Qed.

Lemma py_getitem_world obj key (w w' : world) (r : result pyval) :
  py_getitem obj key w = (r, w') -> w' = w.
Proof.
  destruct obj; cbn; unfold ret, raise; try congruence.
  destruct (dict_lookup key d); congruence.
Qed.

(** ** Transport *)

Section Transport.
Variable self : GetAltsClient.
Variable endpoint : string.
Variable query_params : option (list (string * pyval)).

Let req : request := request_for self endpoint query_params.

(** A decoded object without an "error" key is handed to the caller. *)
Lemma _get_payload (w : world) (d : list (string * pyval)) :
  remote w (sent w) req = Body (PDict d) ->
  dict_lookup "error" d = None ->
  _get self endpoint query_params w =
    (Return (PDict d),
     {| heap := heap w; clock := clock w; ticks := ticks w; remote := remote w;
        sent := S (sent w);
        trace := trace w ++ [EvLog (DebugMakingRequest endpoint query_params);
                             EvRequest req;
                             EvLog (DebugReceivedResponse (PDict d))] |}).
Proof.
  intros Hr He. unfold _get, bind, log, emit, http_get. cbn.
  fold req. rewrite Hr. cbn. unfold dict_mem. rewrite He. cbn.
  now rewrite <- !app_assoc.
Qed.

(** A decoded object with an "error" key is turned into the exception. *)
Lemma _get_rejected (w : world) (d : list (string * pyval)) (e : pyval) :
  remote w (sent w) req = Body (PDict d) ->
  dict_lookup "error" d = Some e ->
  _get self endpoint query_params w =
    (Raise (GetAltsAPIError e),
     {| heap := heap w; clock := clock w; ticks := ticks w; remote := remote w;
        sent := S (sent w);
        trace := trace w ++ [EvLog (DebugMakingRequest endpoint query_params);
                             EvRequest req] |}).
Proof.
  intros Hr He. unfold _get, bind, log, emit, http_get. cbn.
  fold req. rewrite Hr. cbn. unfold dict_mem. rewrite He. cbn.
  now rewrite <- !app_assoc.
Qed.

(** Whatever the remote service answers, [_get] sends exactly one request,
    touches no object and reads no clock. *)
Lemma _get_frame (w w' : world) (r : result pyval) :
  _get self endpoint query_params w = (r, w') ->
  heap w' = heap w /\ ticks w' = ticks w /\ sent w' = S (sent w) /\
  clock w' = clock w /\ remote w' = remote w /\
  exists logs,
    trace w' = trace w ++ EvLog (DebugMakingRequest endpoint query_params)
                       :: EvRequest req :: map EvLog logs.
Proof.
  unfold _get, bind, log, emit, http_get. cbn. fold req.
  destruct (remote w (sent w) req) as [f|v]; cbn.
  - intros [= <- <-]. cbn. repeat split. exists []. now rewrite <- app_assoc.
  - destruct (py_contains "error" v _) as [[[]|e] w1] eqn:Hc;
      apply py_contains_world in Hc as ->.
    + unfold raise.
      destruct (py_getitem v "error" _) as [[a|e] w1] eqn:Hg;
        apply py_getitem_world in Hg as ->;
        intros [= <- <-]; cbn; repeat split; exists [];
        now rewrite <- app_assoc.
    + cbn. intros [= <- <-]. cbn. repeat split.
      exists [DebugReceivedResponse v]. now rewrite <- !app_assoc.
    + intros [= <- <-]. cbn. repeat split. exists []. now rewrite <- app_assoc.
Qed.
End Transport.

(** ** Merging a response into a context *)

#[local] Arguments enum_of_value : simpl never.
#[local] Arguments request_for : simpl never.

Lemma load_ok (r : ref) (c : ActivationContext) (w : world) :
  heap w !! r = Some c -> load r w = (Return c, w).
Proof. intros Hr. unfold load. now rewrite Hr. Qed.

Lemma __context_from_response_ok (r : ref) (c : ActivationContext)
    (d : list (string * pyval)) (s : string) (st : Status) (w : world) :
  heap w !! r = Some c ->
  dict_lookup "status" d = Some (PStr s) ->
  enum_of_value s = Some st ->
  __context_from_response r (PDict d) w =
    (Return r,
     {| heap := <[r := merged c st (dict_get "code" PNone d)]> (heap w);
        clock := clock w; ticks := ticks w; remote := remote w;
        sent := sent w; trace := trace w |}).
Proof.
  intros Hr Hs Hst.
  unfold __context_from_response, bind, store, py_get, ret. cbn.
  rewrite Hs. cbn. rewrite Hst. cbn. rewrite Hr. cbn.
  rewrite list_lookup_insert_eq by (eapply lookup_lt_Some; eassumption). cbn.
  now rewrite list_insert_insert_eq.
Qed.

(** Either the merge succeeds, and then it is the one above, or it raises
    without having written anything. *)
Lemma __context_from_response_inv (r : ref) (c : ActivationContext) (response : pyval)
    (w w' : world) (res : result ref) :
  heap w !! r = Some c ->
  __context_from_response r response w = (res, w') ->
  match res with
  | Return r' =>
      r' = r /\
      exists d s st,
        response = PDict d /\ dict_lookup "status" d = Some (PStr s) /\
        enum_of_value s = Some st /\
        w' = {| heap := <[r := merged c st (dict_get "code" PNone d)]> (heap w);
                clock := clock w; ticks := ticks w; remote := remote w;
                sent := sent w; trace := trace w |}
  | Raise _ => w' = w
  end.
Proof.
  intros Hr.
  destruct response as [| | | | |l|d];
    try (unfold __context_from_response, bind; cbn; intros [= <- <-]; reflexivity).
  destruct (dict_lookup "status" d) as [v|] eqn:Hs;
    [|unfold __context_from_response, bind; cbn; rewrite Hs; cbn;
      intros [= <- <-]; reflexivity].
  destruct v as [| | | |s| |];
    try (unfold __context_from_response, bind; cbn; rewrite Hs; cbn;
         intros [= <- <-]; reflexivity).
  destruct (enum_of_value (E := Status) s) as [st|] eqn:Hst.
  - rewrite (__context_from_response_ok r c d s st w Hr Hs Hst).
    intros [= <- <-]. split; [reflexivity|]. now exists d, s, st.
  - unfold __context_from_response, bind. cbn. rewrite Hs. cbn.
    rewrite Hst. cbn. intros [= <- <-]. reflexivity.
Qed.

(** ** One exchange: a request followed by the merge of its answer

    [get_activation_status] and [_set_activation_status] differ only in the
    request they send. *)

Section Exchange.
Variable self : GetAltsClient.
Variable endpoint : string.
Variable query_params : option (list (string * pyval)).
Variable r : ref.

Let req : request := request_for self endpoint query_params.

Lemma exchange_ok (c : ActivationContext) (d : list (string * pyval))
    (s : string) (st : Status) (w : world) :
  heap w !! r = Some c ->
  remote w (sent w) req = Body (PDict d) ->
  dict_lookup "error" d = None ->
  dict_lookup "status" d = Some (PStr s) ->
  enum_of_value s = Some st ->
  exchange self endpoint query_params r w =
    (Return r,
     {| heap := <[r := merged c st (dict_get "code" PNone d)]> (heap w);
        clock := clock w; ticks := ticks w; remote := remote w;
        sent := S (sent w);
        trace := trace w ++ [EvLog (DebugMakingRequest endpoint query_params);
                             EvRequest req;
                             EvLog (DebugReceivedResponse (PDict d))] |}).
Proof.
  intros Hr Hb He Hs Hst. unfold exchange.
  rewrite (bind_Return _ _ _ _ _ (_get_payload self endpoint query_params w d Hb He)).
  rewrite __context_from_response_ok with (c := c) (s := s) (st := st);
    [reflexivity | assumption..].
Qed.

Lemma exchange_rejected (d : list (string * pyval)) (e : pyval) (w : world) :
  remote w (sent w) req = Body (PDict d) ->
  dict_lookup "error" d = Some e ->
  exchange self endpoint query_params r w =
    (Raise (GetAltsAPIError e),
     {| heap := heap w; clock := clock w; ticks := ticks w; remote := remote w;
        sent := S (sent w);
        trace := trace w ++ [EvLog (DebugMakingRequest endpoint query_params);
                             EvRequest req] |}).
Proof.
  intros Hb He. unfold exchange.
  now rewrite (bind_Raise _ _ _ _ _ (_get_rejected self endpoint query_params w d e Hb He)).
Qed.

(** In every case: one request, no clock reading, and the heap is either
    untouched (failure) or changed at [r] only, in [status] and [code]
    only (success, which returns [r] itself). *)
Lemma exchange_frame (c : ActivationContext) (w w' : world) (res : result ref) :
  heap w !! r = Some c ->
  exchange self endpoint query_params r w = (res, w') ->
  ticks w' = ticks w /\ sent w' = S (sent w) /\
  clock w' = clock w /\ remote w' = remote w /\
  (exists logs,
     trace w' = trace w ++ EvLog (DebugMakingRequest endpoint query_params)
                        :: EvRequest req :: map EvLog logs) /\
  match res with
  | Return r' =>
      r' = r /\ exists st v, heap w' = <[r := merged c st v]> (heap w)
  | Raise _ => heap w' = heap w
  end.
Proof.
  intros Hr. unfold exchange, bind.
  destruct (_get self endpoint query_params w) as [[response|e] w1] eqn:Hget;
    apply _get_frame in Hget as (Hh & Ht & Hs & Hc & Hrem & Htr).
  - intros Hm.
    apply (__context_from_response_inv r c) in Hm; [|now rewrite Hh].
    destruct res as [r'|e].
    + destruct Hm as [-> (d & s & st & -> & _ & _ & ->)]. cbn.
      rewrite Hh. repeat split; try assumption. eauto.
    + subst w'. repeat split; assumption.
  - intros [= <- <-]. repeat split; assumption.
Qed.
End Exchange.

Lemma get_activation_status_exchange (self : GetAltsClient) (r : ref)
    (c : ActivationContext) (w : world) :
  heap w !! r = Some c ->
  get_activation_status self r w =
    exchange self "get_activation_status"
      (Some [("activation_id", activation_id c)]) r w.
Proof.
  intros Hr. unfold get_activation_status.
  now rewrite (bind_Return _ _ _ _ _ (load_ok r c w Hr)).
Qed.

Lemma _set_activation_status_exchange (self : GetAltsClient) (r : ref)
    (a : _Action) (c : ActivationContext) (w : world) :
  heap w !! r = Some c ->
  _set_activation_status self r a w =
    exchange self "set_activation_status"
      (Some [("activation_id", activation_id c);
             ("status", PStr (lower (value a)))]) r w.
Proof.
  intros Hr. unfold _set_activation_status.
  now rewrite (bind_Return _ _ _ _ _ (load_ok r c w Hr)).
Qed.

(** ** The status operations *)

(** C9: a successful status query or status change overwrites the context's
    status with the status of the response and its code with the code of the
    response, which is [None] when the response has no "code" key, whatever
    the context held before. *)
Theorem response_overwrites_status_and_code (self : GetAltsClient) (r : ref)
    (c : ActivationContext) (d : list (string * pyval)) (s : string)
    (st : Status) (w : world) :
  heap w !! r = Some c ->
  dict_lookup "error" d = None ->
  dict_lookup "status" d = Some (PStr s) ->
  enum_of_value s = Some st ->
  (remote w (sent w)
     (request_for self "get_activation_status"
        (Some [("activation_id", activation_id c)])) = Body (PDict d) ->
   exists w' c',
     get_activation_status self r w = (Return r, w') /\
     heap w' !! r = Some c' /\ status c' = st /\
     code c' = match dict_lookup "code" d with Some v => v | None => PNone end) /\
  (forall a : _Action,
     remote w (sent w)
       (request_for self "set_activation_status"
          (Some [("activation_id", activation_id c);
                 ("status", PStr (lower (value a)))])) = Body (PDict d) ->
     exists w' c',
       _set_activation_status self r a w = (Return r, w') /\
       heap w' !! r = Some c' /\ status c' = st /\
       code c' = match dict_lookup "code" d with Some v => v | None => PNone end).
Proof.
  intros Hr He Hs Hst.
  assert (Hlt : (r < length (heap w))%nat) by (eapply lookup_lt_Some; eassumption).
  split; [intros Hb | intros a Hb].
  - rewrite (get_activation_status_exchange self r c w Hr).
    rewrite (exchange_ok self _ _ r c d s st w Hr Hb He Hs Hst).
    eexists _, _. split; [reflexivity|]. cbn.
    rewrite list_lookup_insert_eq by exact Hlt. repeat split.
  - rewrite (_set_activation_status_exchange self r a c w Hr).
    rewrite (exchange_ok self _ _ r c d s st w Hr Hb He Hs Hst).
    eexists _, _. split; [reflexivity|]. cbn.
    rewrite list_lookup_insert_eq by exact Hlt. repeat split.
Qed.

(** C4: whenever [get_activation_status], [_set_activation_status] or one of
    its four wrappers returns, it returns the reference it was given, and the
    heap differs from the one before the call at that reference only, where
    the object has kept its phone number and activation id. *)
Theorem status_calls_update_in_place (self : GetAltsClient) (r : ref)
    (c : ActivationContext) (w : world) (a : _Action) (op : M ref) :
  heap w !! r = Some c ->
  In op [get_activation_status self r; _set_activation_status self r a;
         set_ready_for_code self r; end_activation self r;
         send_another_code self r; mark_number_as_already_used self r] ->
  forall (r' : ref) (w' : world),
    op w = (Return r', w') ->
    r' = r /\
    exists c',
      heap w' = <[r := c']> (heap w) /\
      phone_number c' = phone_number c /\ activation_id c' = activation_id c.
Proof.
  intros Hr Hop r' w' Hrun.
  assert (Hex : exists endpoint query_params,
             op w = exchange self endpoint query_params r w).
  { cbn in Hop.
    destruct Hop as [<-|[<-|[<-|[<-|[<-|[<-|[]]]]]]];
      first [ rewrite (get_activation_status_exchange self r c w Hr)
            | unfold set_ready_for_code, end_activation, send_another_code,
                mark_number_as_already_used;
              rewrite (_set_activation_status_exchange self r _ c w Hr) ];
      eauto. }
  destruct Hex as (endpoint & query_params & Hex). rewrite Hex in Hrun.
  apply (exchange_frame self endpoint query_params r c) in Hrun
    as (_ & _ & _ & _ & _ & -> & st & v & ->); [|exact Hr].
  split; [reflexivity|]. now exists (merged c st v).
Qed.

(** ** Rejected calls *)

(** C6: when the decoded answer is an object, [_get] raises
    [GetAltsAPIError] with the value of its "error" key if it has one, and
    returns the object otherwise; a status query, a status change or a
    purchase that is rejected this way leaves every context as it was. *)
Theorem error_key_raises_api_error (self : GetAltsClient) (w : world)
    (d : list (string * pyval)) :
  (forall endpoint query_params,
     remote w (sent w) (request_for self endpoint query_params) = Body (PDict d) ->
     exists w',
       heap w' = heap w /\
       _get self endpoint query_params w =
         (match dict_lookup "error" d with
          | Some e => Raise (GetAltsAPIError e)
          | None => Return (PDict d)
          end, w')) /\
  (forall e r c,
     dict_lookup "error" d = Some e ->
     heap w !! r = Some c ->
     (remote w (sent w)
        (request_for self "get_activation_status"
           (Some [("activation_id", activation_id c)])) = Body (PDict d) ->
      exists w',
        heap w' = heap w /\
        get_activation_status self r w = (Raise (GetAltsAPIError e), w')) /\
     (forall a : _Action,
        remote w (sent w)
          (request_for self "set_activation_status"
             (Some [("activation_id", activation_id c);
                    ("status", PStr (lower (value a)))])) = Body (PDict d) ->
        exists w',
          heap w' = heap w /\
          _set_activation_status self r a w = (Raise (GetAltsAPIError e), w'))) /\
  (forall e service country,
     dict_lookup "error" d = Some e ->
     remote w (sent w)
       (request_for self "buy_number"
          (Some [("service", PStr (value service));
                 ("country", PStr (value country))])) = Body (PDict d) ->
     exists w',
       heap w' = heap w /\
       buy_number self service country w = (Raise (GetAltsAPIError e), w')).
Proof.
  split; [|split].
  - intros endpoint query_params Hb.
    destruct (dict_lookup "error" d) as [e|] eqn:He.
    + rewrite (_get_rejected self endpoint query_params w d e Hb He).
      eexists. split; [|reflexivity]. reflexivity.
    + rewrite (_get_payload self endpoint query_params w d Hb He).
      eexists. split; [|reflexivity]. reflexivity.
  - intros e r c He Hr. split; [intros Hb | intros a Hb].
    + rewrite (get_activation_status_exchange self r c w Hr).
      rewrite (exchange_rejected self _ _ r d e w Hb He).
      eexists. split; [|reflexivity]. reflexivity.
    + rewrite (_set_activation_status_exchange self r a c w Hr).
      rewrite (exchange_rejected self _ _ r d e w Hb He).
      eexists. split; [|reflexivity]. reflexivity.
  - intros e service country He Hb. unfold buy_number.
    rewrite (bind_Raise _ _ _ _ _ (_get_rejected self _ _ w d e Hb He)).
    eexists. split; [|reflexivity]. reflexivity.
Qed.

(** ** Unknown wire codes *)

Section EnumKeyed.
Context {E : Type} `{PyEnum E} `{EqDecision E}.
Hypothesis complete : forall e : E, enum_of_value (value e) = Some e.

Lemma enum_of_value_None_iff (s : string) :
  enum_of_value (E := E) s = None <-> forall e : E, value e <> s.
Proof.
  split.
  - intros Hnone e <-. rewrite complete in Hnone. discriminate.
  - apply enum_of_value_unknown.
Qed.

(** The comprehension stops at the first key that is no member's value. *)
Lemma enum_keyed_unknown (items : list (string * pyval)) (s : string) :
  In s (map fst items) ->
  (forall e : E, value e <> s) ->
  exists s',
    In s' (map fst items) /\ (forall e : E, value e <> s') /\
    forall (acc : list (E * pyval)) (w : world),
      enum_keyed items acc w = (Raise (ValueError (PStr s')), w).
Proof.
  intros Hin Hs. induction items as [|[k v] items IH]; [destruct Hin|].
  destruct (enum_of_value (E := E) k) as [e|] eqn:Hk.
  - destruct Hin as [Heq|Hin].
    + cbn in Heq. subst k. apply enum_of_value_sound in Hk. now destruct (Hs e).
    + destruct (IH Hin) as (s' & Hin' & Hs' & Hrun).
      exists s'. split; [now right|]. split; [exact Hs'|].
      intros acc w. cbn [enum_keyed].
      rewrite (bind_Return _ _ _ _ _ (enum_call_known k e w Hk)). apply Hrun.
  - exists k. split; [now left|]. split; [now apply enum_of_value_None_iff|].
    intros acc w. cbn [enum_keyed].
    now rewrite (bind_Raise _ _ _ _ _ (enum_call_unknown k w Hk)).
Qed.
End EnumKeyed.

(** C8: a string that is the value of no member of Service, Country or
    Status is not decoded to any member: the enumeration raises
    [ValueError].  So do the places that decode a response: the merge into a
    context and the construction of a fresh one (neither touches the heap),
    and the three price and amount tables. *)
Theorem unknown_wire_code_is_rejected (s : string) :
  ((forall e : Service, value e <> s) ->
   forall w, enum_call (E := Service) (PStr s) w = (Raise (ValueError (PStr s)), w)) /\
  ((forall e : Country, value e <> s) ->
   forall w, enum_call (E := Country) (PStr s) w = (Raise (ValueError (PStr s)), w)) /\
  ((forall e : Status, value e <> s) ->
   (forall w, enum_call (E := Status) (PStr s) w = (Raise (ValueError (PStr s)), w)) /\
   (forall r d w,
      dict_lookup "status" d = Some (PStr s) ->
      __context_from_response r (PDict d) w = (Raise (ValueError (PStr s)), w)) /\
   (forall d p a w,
      dict_lookup "phone_number" d = Some p ->
      dict_lookup "activation_id" d = Some a ->
      dict_lookup "status" d = Some (PStr s) ->
      _from_dict (PDict d) w = (Raise (ValueError (PStr s)), w))) /\
  (forall self w d,
     dict_lookup "error" d = None ->
     In s (map fst d) ->
     ((forall e : Service, value e <> s) ->
      (forall country,
         remote w (sent w)
           (request_for self "get_amount" (Some [("country", PStr (value country))]))
           = Body (PDict d) ->
         exists s' w',
           (forall e : Service, value e <> s') /\
           get_available_numbers_count self country w =
             (Raise (ValueError (PStr s')), w')) /\
      (forall country,
         remote w (sent w)
           (request_for self "get_prices_by_country"
              (Some [("country", PStr (value country))]))
           = Body (PDict d) ->
         exists s' w',
           (forall e : Service, value e <> s') /\
           get_prices_by_country self country w =
             (Raise (ValueError (PStr s')), w'))) /\
     ((forall e : Country, value e <> s) ->
      forall service,
        remote w (sent w)
          (request_for self "get_prices_by_service"
             (Some [("service", PStr (value service))]))
          = Body (PDict d) ->
        exists s' w',
          (forall e : Country, value e <> s') /\
          get_prices_by_service self service w =
            (Raise (ValueError (PStr s')), w'))).
Proof.
  split; [|split; [|split]].
  - intros Hs w. now apply enum_call_unknown, enum_of_value_unknown.
  - intros Hs w. now apply enum_call_unknown, enum_of_value_unknown.
  - intros Hs.
    assert (Hcall : forall w,
               enum_call (E := Status) (PStr s) w = (Raise (ValueError (PStr s)), w))
      by (intros w; now apply enum_call_unknown, enum_of_value_unknown).
    split; [exact Hcall|]. split.
    + intros r d w Hst. unfold __context_from_response.
      rewrite bind_Return with (a := PStr s) (w' := w) by (cbn; now rewrite Hst).
      now rewrite (bind_Raise _ _ _ _ _ (Hcall w)).
    + intros d p a w Hp Ha Hst. unfold _from_dict.
      rewrite bind_Return with (a := p) (w' := w) by (cbn; now rewrite Hp).
      rewrite bind_Return with (a := a) (w' := w) by (cbn; now rewrite Ha).
      rewrite bind_Return with (a := PStr s) (w' := w) by (cbn; now rewrite Hst).
      now rewrite (bind_Raise _ _ _ _ _ (Hcall w)).
  - intros self w d He Hin. split.
    + intros Hs.
      destruct (enum_keyed_unknown Service_complete d s Hin Hs) as (s' & _ & Hs' & Hrun).
      split; intros country Hb; exists s'; eexists; (split; [exact Hs'|]).
      * unfold get_available_numbers_count.
        rewrite (bind_Return _ _ _ _ _ (_get_payload self _ _ w d Hb He)).
        cbn [py_items]. unfold bind at 1, ret at 1. apply Hrun.
      * unfold get_prices_by_country.
        rewrite (bind_Return _ _ _ _ _ (_get_payload self _ _ w d Hb He)).
        cbn [py_items]. unfold bind at 1, ret at 1. apply Hrun.
    + intros Hs service Hb.
      destruct (enum_keyed_unknown Country_complete d s Hin Hs) as (s' & _ & Hs' & Hrun).
      exists s'. eexists. split; [exact Hs'|].
      unfold get_prices_by_service.
      rewrite (bind_Return _ _ _ _ _ (_get_payload self _ _ w d Hb He)).
      cbn [py_items]. unfold bind at 1, ret at 1. apply Hrun.
Qed.

(** ** Counting in traces *)

Lemma count_events_app (p : event -> bool) (t1 t2 : list event) :
  count_events p (t1 ++ t2) = (count_events p t1 + count_events p t2)%nat.
Proof.
  induction t1 as [|e t1 IH]; cbn; [reflexivity|].
  destruct (p e); cbn; now rewrite IH.
Qed.

Lemma count_events_logs (p : event -> bool) (logs : list log_record) :
  (forall l, p (EvLog l) = false) -> count_events p (map EvLog logs) = O.
Proof.
  intros Hp. induction logs as [|l logs IH]; cbn; [reflexivity|].
  now rewrite Hp.
Qed.

(** The request of a status change asks for the transition it was built for
    and for no other. *)
Lemma is_status_request_set (self : GetAltsClient) (v : pyval) (a a' : _Action) :
  is_status_request a
    (EvRequest (request_for self "set_activation_status"
                  (Some [("activation_id", v); ("status", PStr (lower (value a')))])))
  = bool_decide (a' = a).
Proof. destruct a, a'; reflexivity. Qed.

(** A status change leaves exactly one request for its transition in the
    trace, whatever its outcome. *)
Lemma _set_activation_status_requests (self : GetAltsClient) (r : ref)
    (c : ActivationContext) (a a' : _Action) (w w' : world) (res : result ref) :
  heap w !! r = Some c ->
  _set_activation_status self r a' w = (res, w') ->
  status_requests a (trace w') =
    (status_requests a (trace w) + (if bool_decide (a' = a) then 1 else 0))%nat.
Proof.
  intros Hr. rewrite (_set_activation_status_exchange self r a' c w Hr). intros Hx.
  apply (exchange_frame self _ _ r c) in Hx as (_ & _ & _ & _ & [logs ->] & _);
    [|exact Hr].
  unfold status_requests. rewrite count_events_app. f_equal.
  cbn [count_events]. rewrite is_status_request_set.
  rewrite count_events_logs by reflexivity.
  cbn. now destruct (bool_decide (a' = a)).
Qed.

Lemma _set_activation_status_heap (self : GetAltsClient) (r : ref)
    (c : ActivationContext) (a : _Action) (w w' : world) (e : exn) :
  heap w !! r = Some c ->
  _set_activation_status self r a w = (Raise e, w') ->
  heap w' = heap w.
Proof.
  intros Hr. rewrite (_set_activation_status_exchange self r a c w Hr). intros Hx.
  now apply (exchange_frame self _ _ r c) in Hx as (_ & _ & _ & _ & _ & ->).
Qed.

(** ** Cancelling *)

(** C3: [cancel_activation] first asks for the transition Cancel.  When that
    attempt raises [GetAltsAPIError], the result is that of
    [mark_number_as_already_used] and exactly one request for AlreadyUsed is
    sent; in every other case, success or another exception, the result is
    that of the attempt and no request for AlreadyUsed is sent. *)
Theorem cancel_activation_falls_back_on_api_error (self : GetAltsClient)
    (r : ref) (c : ActivationContext) (w : world) :
  heap w !! r = Some c ->
  status_requests Cancel (trace (snd (cancel_activation self r w)))
    = S (status_requests Cancel (trace w)) /\
  match _set_activation_status self r Cancel w with
  | (Raise (GetAltsAPIError _), w1) =>
      cancel_activation self r w =
        mark_number_as_already_used self r (snd (log InfoCancellingNotPossible w1)) /\
      status_requests AlreadyUsed (trace (snd (cancel_activation self r w)))
        = S (status_requests AlreadyUsed (trace w))
  | (res, w1) =>
      cancel_activation self r w = (res, w1) /\
      status_requests AlreadyUsed (trace w1) = status_requests AlreadyUsed (trace w)
  end.
Proof.
  intros Hr. unfold cancel_activation.
  destruct (_set_activation_status self r Cancel w) as [res w1] eqn:Hx.
  pose proof (_set_activation_status_requests self r c Cancel Cancel w w1 res Hr Hx) as HC.
  pose proof (_set_activation_status_requests self r c AlreadyUsed Cancel w w1 res Hr Hx) as HU.
  cbn in HC, HU. rewrite Nat.add_0_r in HU. rewrite Nat.add_1_r in HC.
  destruct res as [r'|e]; [now repeat split|].
  destruct e; try now repeat split.
  pose proof (_set_activation_status_heap self r c Cancel w w1 _ Hr Hx) as Hh.
  set (w2 := snd (log InfoCancellingNotPossible w1)).
  assert (Hr2 : heap w2 !! r = Some c) by (cbn; now rewrite Hh).
  assert (Hrun : (log InfoCancellingNotPossible ;;
                  mark_number_as_already_used self r) w1
                 = mark_number_as_already_used self r w2) by reflexivity.
  rewrite Hrun.
  destruct (mark_number_as_already_used self r w2) as [res3 w3] eqn:Hm.
  unfold mark_number_as_already_used in Hm.
  pose proof (_set_activation_status_requests self r c Cancel AlreadyUsed w2 w3 res3 Hr2 Hm) as HC3.
  pose proof (_set_activation_status_requests self r c AlreadyUsed AlreadyUsed w2 w3 res3 Hr2 Hm) as HU3.
  cbn in HC3, HU3. unfold status_requests in *. rewrite count_events_app in HC3, HU3.
  rewrite bool_decide_eq_false_2 in HC3 by discriminate.
  rewrite bool_decide_eq_true_2 in HU3 by reflexivity.
  cbn in HC3, HU3 |- *. repeat split; lia.
Qed.

(** ** Buying a number *)

Lemma py_getitem_ok (d : list (string * pyval)) (key : string) (v : pyval) (w : world) :
  dict_lookup key d = Some v -> py_getitem (PDict d) key w = (Return v, w).
Proof. intros Hk. cbn. now rewrite Hk. Qed.

Lemma buy_number_ok (self : GetAltsClient) (service : Service) (country : Country)
    (w : world) (d : list (string * pyval)) (p a : pyval) (s : string) (st : Status) :
  remote w (sent w)
    (request_for self "buy_number"
       (Some [("service", PStr (value service));
              ("country", PStr (value country))])) = Body (PDict d) ->
  dict_lookup "error" d = None ->
  dict_lookup "phone_number" d = Some p ->
  dict_lookup "activation_id" d = Some a ->
  dict_lookup "status" d = Some (PStr s) ->
  enum_of_value s = Some st ->
  exists w',
    buy_number self service country w = (Return (length (heap w)), w') /\
    heap w' = heap w ++ [{| phone_number := p; activation_id := a;
                            status := st; code := PNone |}].
Proof.
  intros Hb He Hp Ha Hs Hst. unfold buy_number.
  rewrite (bind_Return _ _ _ _ _ (_get_payload self _ _ w d Hb He)).
  unfold _from_dict.
  rewrite (bind_Return _ _ _ _ _ (py_getitem_ok d _ p _ Hp)).
  rewrite (bind_Return _ _ _ _ _ (py_getitem_ok d _ a _ Ha)).
  rewrite (bind_Return _ _ _ _ _ (py_getitem_ok d _ (PStr s) _ Hs)).
  rewrite (bind_Return _ _ _ _ _ (enum_call_known s st _ Hst)).
  eexists. split; reflexivity.
Qed.

(** A context built from a dictionary is a new object without a code. *)
Lemma _from_dict_inv (data : pyval) (w w' : world) (r : ref) :
  _from_dict data w = (Return r, w') ->
  r = length (heap w) /\
  exists c, heap w' = heap w ++ [c] /\ code c = PNone.
Proof.
  unfold _from_dict, bind.
  destruct (py_getitem data "phone_number" w) as [[p|e] w1] eqn:H1;
    apply py_getitem_world in H1 as ->; [|discriminate].
  destruct (py_getitem data "activation_id" w) as [[a|e] w1] eqn:H2;
    apply py_getitem_world in H2 as ->; [|discriminate].
  destruct (py_getitem data "status" w) as [[s|e] w1] eqn:H3;
    apply py_getitem_world in H3 as ->; [|discriminate].
  destruct (enum_call (E := Status) s w) as [[st|e] w1] eqn:H4;
    apply enum_call_world in H4 as ->; [|discriminate].
  unfold new. intros [= <- <-]. cbn. eauto.
Qed.

(** C5, as the code has it: a successful purchase returns a reference to a
    new object, appended to the heap, whose phone number and activation id
    are those of the response, whose status is the decoded status of the
    response (Ready exactly when the response says "READY") and whose code is
    [None]. *)
Theorem buy_number_decodes_response (self : GetAltsClient) (service : Service)
    (country : Country) (w : world) (d : list (string * pyval)) (p a : pyval)
    (s : string) (st : Status) :
  remote w (sent w)
    (request_for self "buy_number"
       (Some [("service", PStr (value service));
              ("country", PStr (value country))])) = Body (PDict d) ->
  dict_lookup "error" d = None ->
  dict_lookup "phone_number" d = Some p ->
  dict_lookup "activation_id" d = Some a ->
  dict_lookup "status" d = Some (PStr s) ->
  enum_of_value s = Some st ->
  exists r w' c,
    buy_number self service country w = (Return r, w') /\
    heap w !! r = None /\ heap w' !! r = Some c /\
    (forall j c0, heap w !! j = Some c0 -> heap w' !! j = Some c0) /\
    phone_number c = p /\ activation_id c = a /\ status c = st /\
    code c = PNone /\
    (status c = Ready <-> s = "READY").
Proof.
  intros Hb He Hp Ha Hs Hst.
  destruct (buy_number_ok self service country w d p a s st Hb He Hp Ha Hs Hst)
    as (w' & Hrun & Hheap).
  exists (length (heap w)), w'. eexists. split; [exact Hrun|].
  rewrite Hheap. split; [now apply lookup_ge_None_2|].
  split; [apply list_lookup_middle; reflexivity|].
  split; [intros j c0 Hj; now apply lookup_app_l_Some|].
  cbn. repeat split.
  - intros ->. apply enum_of_value_sound in Hst. now rewrite <- Hst.
  - intros ->. cbv in Hst. congruence.
Qed.

(** C10: whatever the purchase response contains, the context that
    [buy_number] returns is a new object whose code is [None]. *)
Theorem buy_number_code_is_None (self : GetAltsClient) (service : Service)
    (country : Country) (w w' : world) (r : ref) :
  buy_number self service country w = (Return r, w') ->
  exists c, heap w' !! r = Some c /\ code c = PNone /\ heap w !! r = None.
Proof.
  unfold buy_number, bind.
  destruct (_get self _ _ w) as [[response|e] w1] eqn:Hget; [|discriminate].
  apply _get_frame in Hget as (Hh & _). intros Hfd.
  apply _from_dict_inv in Hfd as (-> & c & Hh' & Hc).
  rewrite Hh in *. exists c. rewrite Hh'.
  split; [apply list_lookup_middle; reflexivity|].
  split; [exact Hc|]. now apply lookup_ge_None_2.
Qed.

(** ** Waiting for the code *)

Lemma datetime_add_ok (d delta : Z) (w : world) :
  0 <= d + delta <= datetime_max ->
  datetime_add d delta w = (Return (d + delta), w).
Proof.
  intros [Hlo Hhi]. unfold datetime_add.
  apply Z.leb_le in Hlo, Hhi. now rewrite Hlo, Hhi.
Qed.

Section PollOnce.
Variable self : GetAltsClient.
Variable r : ref.
Variables start max_wait : Z.
Hypothesis in_range : 0 <= start + max_wait <= datetime_max.

(** Past the deadline the turn raises, having read the clock only. *)
Lemma poll_once_timed_out (w : world) :
  clock w (ticks w) > start + max_wait ->
  poll_once self r start max_wait w =
    (Raise NoCodeReceived,
     {| heap := heap w; clock := clock w; ticks := S (ticks w);
        remote := remote w; sent := sent w; trace := trace w |}).
Proof.
  intros Hlate. unfold poll_once, bind at 1, datetime_now.
  rewrite (bind_Return _ _ _ _ _ (datetime_add_ok _ _ _ in_range)).
  cbn [clock]. destruct (Z.gtb_spec (clock w (ticks w)) (start + max_wait)); [|lia].
  reflexivity.
Qed.

(** Before the deadline, a successful answer is merged, and the turn
    either sleeps five seconds and goes on (no code) or leaves the loop. *)
Lemma poll_once_in_time (c : ActivationContext) (d : list (string * pyval))
    (st : Status) (v : pyval) (w : world) :
  heap w !! r = Some c ->
  clock w (ticks w) <= start + max_wait ->
  remote w (sent w) (status_query self c) = Body (PDict d) ->
  successful_answer d st v ->
  poll_once self r start max_wait w =
    (Return (match v with PNone => Continue r | _ => Break r end),
     {| heap := <[r := merged c st v]> (heap w); clock := clock w;
        ticks := S (ticks w); remote := remote w; sent := S (sent w);
        trace := trace w ++
          [EvLog InfoCheckingActivationStatus;
           EvLog (DebugMakingRequest "get_activation_status"
                    (Some [("activation_id", activation_id c)]));
           EvRequest (status_query self c);
           EvLog (DebugReceivedResponse (PDict d))] ++
          match v with PNone => [EvSleep 5] | _ => [] end |}).
Proof.
  intros Hr Hearly Hb (He & (s & Hs & Hst) & Hv).
  assert (Hlt : (r < length (heap w))%nat) by (eapply lookup_lt_Some; eassumption).
  unfold poll_once, bind at 1, datetime_now.
  rewrite (bind_Return _ _ _ _ _ (datetime_add_ok _ _ _ in_range)).
  cbn [clock]. destruct (Z.gtb_spec (clock w (ticks w)) (start + max_wait)); [lia|].
  unfold bind at 1, log, emit.
  rewrite bind_Return with (a := r)
    (w' := {| heap := <[r := merged c st v]> (heap w); clock := clock w;
              ticks := S (ticks w); remote := remote w; sent := S (sent w);
              trace := (trace w ++ [EvLog InfoCheckingActivationStatus]) ++
                [EvLog (DebugMakingRequest "get_activation_status"
                          (Some [("activation_id", activation_id c)]));
                 EvRequest (status_query self c);
                 EvLog (DebugReceivedResponse (PDict d))] |}).
  2:{ rewrite (get_activation_status_exchange self r c) by exact Hr.
      rewrite (exchange_ok self _ _ r c d s st) by assumption.
      now rewrite Hv. }
  rewrite bind_Return with (a := merged c st v) (w' := _)
    by (apply load_ok; cbn; now apply list_lookup_insert_eq).
  cbn [code merged].
  destruct v; cbn; rewrite <- ?app_assoc, ?app_nil_r; reflexivity.
Qed.
End PollOnce.

(** C1: when the first two polls are answered without a code and the third
    with one (the deadline not being passed at any of the three checks, so
    that the three polls take place), the call polls three times, sleeps
    five seconds twice, and then invokes the callback once, on the context
    it was given, which now holds the third answer; it returns what the
    callback returns, hence normally when the callback does. *)
Theorem code_on_third_poll (fuel : nat) (self : GetAltsClient) (cb : callback)
    (r : ref) (c : ActivationContext) (max_wait : Z) (w : world)
    (d1 d2 d3 : list (string * pyval)) (st1 st2 st3 : Status) (v : pyval) :
  (3 <= fuel)%nat ->
  heap w !! r = Some c ->
  let start := clock w (ticks w) in
  0 <= start + max_wait <= datetime_max ->
  clock w (1 + ticks w) <= start + max_wait ->
  clock w (2 + ticks w) <= start + max_wait ->
  clock w (3 + ticks w) <= start + max_wait ->
  remote w (sent w) (status_query self c) = Body (PDict d1) ->
  successful_answer d1 st1 PNone ->
  remote w (1 + sent w)%nat (status_query self c) = Body (PDict d2) ->
  successful_answer d2 st2 PNone ->
  remote w (2 + sent w)%nat (status_query self c) = Body (PDict d3) ->
  successful_answer d3 st3 v ->
  v <> PNone ->
  let making_request :=
    EvLog (DebugMakingRequest "get_activation_status"
             (Some [("activation_id", activation_id c)])) in
  let w3 :=
    {| heap := <[r := merged c st3 v]> (heap w); clock := clock w;
       ticks := (4 + ticks w)%nat; remote := remote w; sent := (3 + sent w)%nat;
       trace := trace w ++
         [EvLog InfoCheckingActivationStatus; making_request;
          EvRequest (status_query self c);
          EvLog (DebugReceivedResponse (PDict d1)); EvSleep 5;
          EvLog InfoCheckingActivationStatus; making_request;
          EvRequest (status_query self c);
          EvLog (DebugReceivedResponse (PDict d2)); EvSleep 5;
          EvLog InfoCheckingActivationStatus; making_request;
          EvRequest (status_query self c);
          EvLog (DebugReceivedResponse (PDict d3))] |} in
  register_code_received_callback fuel self cb r max_wait w = Some (invoke cb r w3) /\
  polls (trace w3) = (3 + polls (trace w))%nat /\
  sleeps (trace w3) = (2 + sleeps (trace w))%nat /\
  callbacks (trace w3) = callbacks (trace w) /\
  callbacks (trace (snd (emit (EvCallback (iscoroutinefunction cb) r) w3)))
    = (1 + callbacks (trace w))%nat /\
  forall (x : pyval) (w4 : world),
    call cb r (snd (emit (EvCallback (iscoroutinefunction cb) r) w3)) = (Return x, w4) ->
    register_code_received_callback fuel self cb r max_wait w = Some (Return tt, w4).
Proof.
  intros Hfuel Hr start Hrange Hc1 Hc2 Hc3 Hb1 Ha1 Hb2 Ha2 Hb3 Ha3 Hv making_request w3.
  assert (Hlt : (r < length (heap w))%nat) by (eapply lookup_lt_Some; eassumption).
  assert (Hrun : register_code_received_callback fuel self cb r max_wait w
                 = Some (invoke cb r w3)).
  { destruct fuel as [|[|[|fuel]]]; try lia.
    unfold register_code_received_callback, datetime_now.
    cbn [poll_until_code].
    erewrite (poll_once_in_time self r _ max_wait Hrange c d1 st1 PNone);
      [|exact Hr|exact Hc1|exact Hb1|exact Ha1].
    cbn [poll_until_code].
    erewrite (poll_once_in_time self r _ max_wait Hrange (merged c st1 PNone) d2 st2 PNone);
      [|cbn; now apply list_lookup_insert_eq|exact Hc2|exact Hb2|exact Ha2].
    erewrite (poll_once_in_time self r _ max_wait Hrange (merged c st2 PNone) d3 st3 v);
      [|cbn; rewrite list_insert_insert_eq; now apply list_lookup_insert_eq
       |exact Hc3|exact Hb3|exact Ha3].
    destruct v; try congruence;
      cbn; rewrite !list_insert_insert_eq, <- !app_assoc; reflexivity. }
  split; [exact Hrun|].
  assert (Hurl : is_request_to "get_activation_status"
                   (EvRequest (status_query self c)) = true) by reflexivity.
  refine (conj _ (conj _ (conj _ (conj _ _)))).
  1-4: unfold polls, sleeps, callbacks; cbn [trace w3 snd emit];
       rewrite !count_events_app; cbn [count_events]; rewrite ?Hurl; cbn; lia.
  intros x w4 Hcall. rewrite Hrun. f_equal.
  unfold invoke.
  destruct (iscoroutinefunction cb); unfold bind, emit in *;
    cbn [snd] in Hcall; rewrite Hcall; reflexivity.
Qed.

(** C2, as the code has it: with [max_wait = 0], when the clock reading of
    the first deadline check is later than the reading taken at the start of
    the call, the call raises [NoCodeReceived] at that check, having sent no
    request and slept not at all. *)
Theorem zero_max_wait_times_out_once_clock_advanced (fuel : nat)
    (self : GetAltsClient) (cb : callback) (r : ref) (w : world) :
  (1 <= fuel)%nat ->
  0 <= clock w (ticks w) <= datetime_max ->
  clock w (S (ticks w)) > clock w (ticks w) ->
  register_code_received_callback fuel self cb r 0 w =
    Some (Raise NoCodeReceived,
          {| heap := heap w; clock := clock w; ticks := S (S (ticks w));
             remote := remote w; sent := sent w; trace := trace w |}).
Proof.
  intros Hfuel Hrange Hlate.
  destruct fuel as [|fuel]; [lia|].
  unfold register_code_received_callback, datetime_now.
  cbn [poll_until_code].
  rewrite poll_once_timed_out; [reflexivity|lia|cbn; lia].
Qed.

(** * Examples *)

(** Three polls, two seconds under way each, against a service that reports
    the code on the third: the callback runs and the call returns. *)
Lemma code_on_third_poll_example :
  exists w4,
    register_code_received_callback 3 example_client example_callback 0%nat
      default_max_wait
      (example_world [example_context]
         [example_time; example_time + 1; example_time + 5000002;
          example_time + 10000003]
         [Body (PDict answer_waiting); Body (PDict answer_waiting);
          Body (PDict answer_code)])
    = Some (Return tt, w4) /\
    polls (trace w4) = 3%nat /\ sleeps (trace w4) = 2%nat /\
    callbacks (trace w4) = 1%nat /\
    heap w4 !! 0%nat = Some (merged example_context StatusOk (PInt 4711)).
Proof.
  eexists. split.
  - eapply (code_on_third_poll 3 example_client example_callback 0%nat
              example_context default_max_wait _
              answer_waiting answer_waiting answer_code
              WaitingForCode WaitingForCode StatusOk (PInt 4711)).
    + lia.
    + reflexivity.
    + vm_compute. split; discriminate.
    + vm_compute. discriminate.
    + vm_compute. discriminate.
    + vm_compute. discriminate.
    + reflexivity.
    + split; [reflexivity|]. split; [|reflexivity]. eexists. split; reflexivity.
    + reflexivity.
    + split; [reflexivity|]. split; [|reflexivity]. eexists. split; reflexivity.
    + reflexivity.
    + split; [reflexivity|]. split; [|reflexivity]. eexists. split; reflexivity.
    + discriminate.
    + reflexivity.
  - vm_compute. repeat split.
Defined.

(** With a clock that has moved on by the first check, [max_wait = 0] ends
    the wait at once. *)
Lemma zero_max_wait_example :
  exists w',
    register_code_received_callback 1 example_client example_callback 0%nat 0
      (example_world [example_context] [example_time; example_time + 1]
         [Body (PDict answer_waiting)])
    = Some (Raise NoCodeReceived, w') /\
    polls (trace w') = 0%nat /\ sleeps (trace w') = 0%nat.
Proof.
  eexists. split.
  - apply (zero_max_wait_times_out_once_clock_advanced 1 example_client
             example_callback 0%nat).
    + lia.
    + vm_compute. split; discriminate.
    + reflexivity.
  - split; reflexivity.
Defined.

(** C2 refuted as stated: the clock returns the same reading at the start of
    the call and at the first deadline check (two calls within one
    microsecond), so with [max_wait = 0] the deadline is not passed yet: the
    status is queried once and the call sleeps once before it gives up at
    the second check. *)
Lemma zero_max_wait_polls_when_clock_stands_still :
  exists w',
    register_code_received_callback 2 example_client example_callback 0%nat 0
      (example_world [example_context]
         [example_time; example_time; example_time + 5000100]
         [Body (PDict answer_waiting); Body (PDict answer_waiting)])
    = Some (Raise NoCodeReceived, w') /\
    polls (trace w') = 1%nat /\ sleeps (trace w') = 1%nat.
Proof. eexists. split; [vm_compute; reflexivity|]. split; reflexivity. Qed.

(** Cancelling is rejected, marking as used is accepted: one request each. *)
Lemma cancel_activation_example :
  let w := example_world [example_context] []
             [Body (PDict answer_rejected); Body (PDict answer_code)] in
  status_requests Cancel (trace (snd (cancel_activation example_client 0%nat w))) = 1%nat /\
  cancel_activation example_client 0%nat w =
    mark_number_as_already_used example_client 0%nat
      (snd (log InfoCancellingNotPossible
              (snd (_set_activation_status example_client 0%nat Cancel w)))) /\
  status_requests AlreadyUsed (trace (snd (cancel_activation example_client 0%nat w)))
    = 1%nat.
Proof.
  exact (cancel_activation_falls_back_on_api_error example_client 0%nat
           example_context
           (example_world [example_context] []
              [Body (PDict answer_rejected); Body (PDict answer_code)])
           eq_refl).
Defined.

(** A status query answered with a code: the same reference comes back and
    the object keeps its phone number and activation id. *)
Lemma status_calls_update_in_place_example :
  let w := example_world [example_context] [] [Body (PDict answer_code)] in
  0%nat = 0%nat /\
  exists c',
    heap (snd (get_activation_status example_client 0%nat w)) = <[0%nat := c']> (heap w) /\
    phone_number c' = PStr "+79001234567" /\ activation_id c' = PInt 42.
Proof.
  exact (status_calls_update_in_place example_client 0%nat example_context
           (example_world [example_context] [] [Body (PDict answer_code)])
           Cancel (get_activation_status example_client 0%nat)
           eq_refl (or_introl eq_refl) 0%nat _ eq_refl).
Defined.

(** The purchase of the specification's scenario. *)
Lemma buy_number_example :
  exists r w' c,
    buy_number example_client Telegram Russia
      (example_world [] [] [Body (PDict answer_purchase)]) = (Return r, w') /\
    heap w' !! r = Some c /\
    phone_number c = PStr "+7900" /\ activation_id c = PInt 42 /\
    status c = Ready /\ code c = PNone.
Proof.
  destruct (buy_number_decodes_response example_client Telegram Russia
              (example_world [] [] [Body (PDict answer_purchase)])
              answer_purchase (PStr "+7900") (PInt 42) "READY" Ready
              eq_refl eq_refl eq_refl eq_refl eq_refl eq_refl)
    as (r & w' & c & Hrun & _ & Hc & _ & Hp & Ha & Hs & Hcode & _).
  exists r, w', c. repeat split; assumption.
Defined.

(** C5 refuted as stated: the purchase is answered with the status
    "STATUS_WAIT_CODE", and that, not Ready, is the status of the context. *)
Lemma buy_number_status_is_not_always_Ready :
  exists r w' c,
    buy_number example_client Telegram Russia
      (example_world [] [] [Body (PDict answer_purchase_waiting)]) = (Return r, w') /\
    heap w' !! r = Some c /\
    status c = WaitingForCode /\ status c <> Ready.
Proof.
  eexists _, _, _. split; [vm_compute; reflexivity|].
  split; [reflexivity|]. split; [reflexivity|]. discriminate.
Qed.

(** The purchase response carries a code; the context does not. *)
Lemma buy_number_code_is_None_example :
  exists c,
    heap (snd (buy_number example_client Telegram Russia
                 (example_world [] [] [Body (PDict answer_purchase_waiting)])))
      !! 0%nat = Some c /\
    code c = PNone /\
    heap (example_world [] [] [Body (PDict answer_purchase_waiting)]) !! 0%nat = None.
Proof.
  exact (buy_number_code_is_None example_client Telegram Russia
           (example_world [] [] [Body (PDict answer_purchase_waiting)]) _ 0%nat
           eq_refl).
Defined.

(** The specification's scenario: the answer is [{"error": "NO_BALANCE"}]. *)
Lemma error_key_raises_api_error_example :
  let w := example_world [example_context] [] [Body (PDict answer_rejected)] in
  exists w',
    heap w' = heap w /\
    get_activation_status example_client 0%nat w
      = (Raise (GetAltsAPIError (PStr "NO_BALANCE")), w').
Proof.
  exact (proj1 (proj1 (proj2 (error_key_raises_api_error example_client
                                (example_world [example_context] []
                                   [Body (PDict answer_rejected)])
                                answer_rejected))
                  (PStr "NO_BALANCE") 0%nat example_context eq_refl eq_refl)
           eq_refl).
Defined.

(** "xx" is no status: a response carrying it is refused and the context is
    left alone. *)
Lemma unknown_wire_code_example :
  let w := example_world [example_context] [] [] in
  __context_from_response 0%nat (PDict [("status", PStr "xx")]) w
    = (Raise (ValueError (PStr "xx")), w).
Proof.
  refine (proj1 (proj2 (proj1 (proj2 (proj2 (unknown_wire_code_is_rejected "xx"))) _))
            0%nat [("status", PStr "xx")] _ eq_refl).
  intros []; discriminate.
Defined.

(** A status query answered without a code: the code the context held is
    replaced by [None]. *)
Lemma response_overwrites_status_and_code_example :
  let w := example_world [example_context] [] [Body (PDict answer_waiting)] in
  code example_context = PInt 1111 /\
  exists w' c',
    get_activation_status example_client 0%nat w = (Return 0%nat, w') /\
    heap w' !! 0%nat = Some c' /\ status c' = WaitingForCode /\ code c' = PNone.
Proof.
  split; [reflexivity|].
  exact (proj1 (response_overwrites_status_and_code example_client 0%nat
                  example_context answer_waiting "STATUS_WAIT_CODE" WaitingForCode
                  (example_world [example_context] [] [Body (PDict answer_waiting)])
                  eq_refl eq_refl eq_refl eq_refl)
           eq_refl).
Defined.

(** * Further properties *)

(** ** Dictionaries *)

Section DictFacts.
Context {K V : Type} `{EqDecision K}.

Lemma dict_lookup_set_eq (k : K) (v : V) (d : list (K * V)) :
  dict_lookup k (dict_set k v d) = Some v.
Proof.
  induction d as [|[k' v'] d IH]; cbn.
  - now rewrite decide_True.
  - destruct (decide (k' = k)) as [->|Hne]; cbn.
    + now rewrite decide_True.
    + now rewrite decide_False.
Qed.

Lemma dict_lookup_set_ne (k k' : K) (v : V) (d : list (K * V)) :
  k <> k' -> dict_lookup k' (dict_set k v d) = dict_lookup k' d.
Proof.
  intros Hne. induction d as [|[k0 v0] d IH]; cbn.
  - now rewrite decide_False.
  - destruct (decide (k0 = k)) as [->|Hk]; cbn.
    + now rewrite !decide_False.
    + destruct (decide (k0 = k')); [reflexivity | exact IH].
Qed.

Lemma dict_lookup_None (k : K) (d : list (K * V)) :
  dict_lookup k d = None <-> ~ In k (map fst d).
Proof.
  induction d as [|[k' v'] d IH]; cbn; [tauto|].
  destruct (decide (k' = k)) as [->|Hne].
  - split; [discriminate | intros Hn; destruct Hn; now left].
  - rewrite IH. tauto.
Qed.

(** Assigning to a key the dictionary does not have appends the item. *)
Lemma dict_set_fresh (k : K) (v : V) (d : list (K * V)) :
  ~ In k (map fst d) -> dict_set k v d = d ++ [(k, v)].
Proof.
  induction d as [|[k' v'] d IH]; cbn; [reflexivity|].
  intros Hn. rewrite decide_False by (intros ->; apply Hn; now left).
  rewrite IH by (intros Hin; apply Hn; now right). reflexivity.
Qed.
End DictFacts.

(** ** What a request carries *)

(** X1: whatever parameters the caller passes and whatever the remote service
    answers, [_get] sends exactly one request: to the URL of the endpoint
    under the base URL, with the client's timeout, with the client's token
    under "token" (a "token" parameter of the caller is overwritten) and
    with every other parameter as the caller gave it. *)
Theorem _get_sends_token (self : GetAltsClient) (endpoint : string)
    (query_params : option (list (string * pyval))) (w w' : world)
    (res : result pyval) :
  _get self endpoint query_params w = (res, w') ->
  exists req logs,
    trace w' = trace w ++ EvLog (DebugMakingRequest endpoint query_params)
                       :: EvRequest req :: map EvLog logs /\
    sent w' = S (sent w) /\
    req_url req = String.append "http://getalts.club/api/" endpoint /\
    req_timeout req = timeout self /\
    dict_lookup "token" (req_params req) = Some (PStr (token self)) /\
    forall k, k <> "token" ->
      dict_lookup k (req_params req) =
      match query_params with Some d => dict_lookup k d | None => None end.
Proof.
  intros Hrun.
  apply _get_frame in Hrun as (_ & _ & Hs & _ & _ & logs & Htr).
  exists (request_for self endpoint query_params), logs.
  split; [exact Htr|]. split; [exact Hs|].
  split; [reflexivity|]. split; [reflexivity|].
  unfold request_for. cbn [req_params]. split.
  - apply dict_lookup_set_eq.
  - intros k Hk. rewrite dict_lookup_set_ne by congruence.
    destruct query_params as [[|item d]|]; reflexivity.
Qed.

Lemma _get_sends_token_example :
  exists req logs,
    trace (snd (_get example_client "get_balance"
                  (Some [("token", PStr "other"); ("country", PStr "ru")])
                  (example_world [] [] []))) =
      [] ++ EvLog (DebugMakingRequest "get_balance"
                     (Some [("token", PStr "other"); ("country", PStr "ru")]))
         :: EvRequest req :: map EvLog logs /\
    sent (snd (_get example_client "get_balance"
                 (Some [("token", PStr "other"); ("country", PStr "ru")])
                 (example_world [] [] []))) = 1%nat /\
    req_url req = "http://getalts.club/api/get_balance" /\
    req_timeout req = 10 /\
    dict_lookup "token" (req_params req) = Some (PStr "t0ken") /\
    forall k, k <> "token" ->
      dict_lookup k (req_params req) =
      dict_lookup k [("token", PStr "other"); ("country", PStr "ru")].
Proof.
  exact (_get_sends_token example_client "get_balance"
           (Some [("token", PStr "other"); ("country", PStr "ru")])
           (example_world [] [] [])
           (snd (_get example_client "get_balance"
                   (Some [("token", PStr "other"); ("country", PStr "ru")])
                   (example_world [] [] [])))
           (fst (_get example_client "get_balance"
                   (Some [("token", PStr "other"); ("country", PStr "ru")])
                   (example_world [] [] [])))
           (surjective_pairing _)).
Defined.

(** X2: a status change sends the activation id of the context and the wire
    code of the transition in lower case, and the lowered wire codes of two
    different transitions differ, so the request tells which transition is
    asked for. *)
Theorem _set_activation_status_request (self : GetAltsClient) (r : ref)
    (c : ActivationContext) (a : _Action) (w w' : world) (res : result ref) :
  heap w !! r = Some c ->
  _set_activation_status self r a w = (res, w') ->
  (exists req logs,
     trace w' = trace w ++ EvLog (DebugMakingRequest "set_activation_status"
                                    (Some [("activation_id", activation_id c);
                                           ("status", PStr (lower (value a)))]))
                        :: EvRequest req :: map EvLog logs /\
     dict_lookup "activation_id" (req_params req) = Some (activation_id c) /\
     dict_lookup "status" (req_params req) = Some (PStr (lower (value a)))) /\
  forall a' : _Action, lower (value a') = lower (value a) -> a' = a.
Proof.
  intros Hr. rewrite (_set_activation_status_exchange self r a c w Hr). intros Hx.
  apply (exchange_frame self _ _ r c) in Hx as (_ & _ & _ & _ & [logs Htr] & _);
    [|exact Hr].
  split.
  - eexists _, logs. split; [exact Htr|].
    split; reflexivity.
  - intros a'. destruct a, a'; cbv; congruence.
Qed.

Lemma _set_activation_status_request_example :
  let w := example_world [example_context] [] [Body (PDict answer_code)] in
  (exists req logs,
     trace (snd (_set_activation_status example_client 0%nat SendAnotherCode w)) =
       trace w ++ EvLog (DebugMakingRequest "set_activation_status"
                           (Some [("activation_id", PInt 42);
                                  ("status", PStr "one_more_code")]))
               :: EvRequest req :: map EvLog logs /\
     dict_lookup "activation_id" (req_params req) = Some (PInt 42) /\
     dict_lookup "status" (req_params req) = Some (PStr "one_more_code")) /\
  forall a' : _Action, lower (value a') = "one_more_code" -> a' = SendAnotherCode.
Proof.
  exact (_set_activation_status_request example_client 0%nat example_context
           SendAnotherCode
           (example_world [example_context] [] [Body (PDict answer_code)])
           (snd (_set_activation_status example_client 0%nat SendAnotherCode
                   (example_world [example_context] [] [Body (PDict answer_code)])))
           (fst (_set_activation_status example_client 0%nat SendAnotherCode
                   (example_world [example_context] [] [Body (PDict answer_code)])))
           eq_refl (surjective_pairing _)).
Defined.

(** ** Read-only queries *)

Lemma _get_failed (self : GetAltsClient) (endpoint : string)
    (query_params : option (list (string * pyval))) (w : world)
    (f : transport_failure) :
  remote w (sent w) (request_for self endpoint query_params) = Failure f ->
  _get self endpoint query_params w =
    (Raise (TransportError f),
     {| heap := heap w; clock := clock w; ticks := ticks w; remote := remote w;
        sent := S (sent w);
        trace := trace w ++ [EvLog (DebugMakingRequest endpoint query_params);
                             EvRequest (request_for self endpoint query_params)] |}).
Proof.
  intros Hr. unfold _get, bind, log, emit, http_get. cbn.
  rewrite Hr. now rewrite <- !app_assoc.
Qed.

(** X3: [get_balance] sends one request and touches no context.  When the
    answer is an accepted object it returns what is stored under "balance",
    and raises [KeyError] when there is no such key; a transport failure is
    raised as it is. *)
Theorem get_balance_outcomes (self : GetAltsClient) (w : world) :
  (forall res w',
     get_balance self w = (res, w') ->
     heap w' = heap w /\ sent w' = S (sent w)) /\
  (forall d,
     remote w (sent w) (request_for self "get_balance" None) = Body (PDict d) ->
     dict_lookup "error" d = None ->
     fst (get_balance self w) =
       match dict_lookup "balance" d with
       | Some v => Return v
       | None => Raise (KeyError "balance")
       end) /\
  (forall f,
     remote w (sent w) (request_for self "get_balance" None) = Failure f ->
     fst (get_balance self w) = Raise (TransportError f)).
Proof.
  split; [|split].
  - intros res w'. unfold get_balance, bind.
    destruct (_get self "get_balance" None w) as [[response|e] w1] eqn:Hget;
      apply _get_frame in Hget as (Hh & _ & Hs & _).
    + intros Hg. apply py_getitem_world in Hg as ->. now split.
    + intros [= <- <-]. now split.
  - intros d Hb He. unfold get_balance.
    rewrite (bind_Return _ _ _ _ _ (_get_payload self _ _ w d Hb He)).
    cbn. now destruct (dict_lookup "balance" d).
  - intros f Hb. unfold get_balance.
    now rewrite (bind_Raise _ _ _ _ _ (_get_failed self _ _ w f Hb)).
Qed.

Lemma get_balance_example :
  fst (get_balance example_client
         (example_world [] [] [Body (PDict [("balance", PInt 250)])]))
    = Return (PInt 250) /\
  fst (get_balance example_client
         (example_world [] [] [Body (PDict [("credit", PInt 250)])]))
    = Raise (KeyError "balance").
Proof.
  split.
  - exact (proj1 (proj2 (get_balance_outcomes example_client
                           (example_world [] [] [Body (PDict [("balance", PInt 250)])])))
             [("balance", PInt 250)] eq_refl eq_refl).
  - exact (proj1 (proj2 (get_balance_outcomes example_client
                           (example_world [] [] [Body (PDict [("credit", PInt 250)])])))
             [("credit", PInt 250)] eq_refl eq_refl).
Defined.

(** *** The tables *)

Section EnumKeyedOk.
Context {E : Type} `{PyEnum E} `{EqDecision E}.

(** With every key a member's value and no key twice, the comprehension
    keeps the items in their order and only decodes the keys. *)
Lemma enum_keyed_decodes (items : list (string * pyval)) :
  forall (acc : list (E * pyval)) (w : world),
    Forall (fun k => exists e : E, enum_of_value k = Some e) (map fst items) ->
    List.NoDup (map (fun item => value (fst item)) acc ++ map fst items) ->
    exists t,
      enum_keyed items acc w = (Return (acc ++ t), w) /\
      map (fun item => (value (fst item), snd item)) t = items.
Proof.
  induction items as [|[k v] items IH]; intros acc w Hall Hnd.
  - exists []. now rewrite app_nil_r.
  - cbn in Hall. apply Forall_cons in Hall as [[e He] Hall].
    pose proof (enum_of_value_sound k e He) as Hk.
    cbn [enum_keyed].
    rewrite (bind_Return _ _ _ _ _ (enum_call_known k e w He)).
    assert (Hfresh : ~ In e (map fst acc)).
    { intros Hin. cbn in Hnd. apply NoDup_remove_2 in Hnd. apply Hnd.
      apply in_or_app. left.
      apply in_map_iff in Hin as ([e' v'] & Heq & Hin). cbn in Heq. subst e'.
      apply in_map_iff. exists (e, v'). now split. }
    rewrite (dict_set_fresh e v acc Hfresh).
    destruct (IH (acc ++ [(e, v)]) w Hall) as (t & Hrun & Ht).
    { rewrite map_app. cbn. rewrite Hk, <- app_assoc. exact Hnd. }
    exists ((e, v) :: t). split.
    + rewrite Hrun. now rewrite <- app_assoc.
    + cbn. now rewrite Hk, Ht.
Qed.
End EnumKeyedOk.

Lemma dict_lookup_decoded {E : Type} `{PyEnum E} `{EqDecision E}
    (t : list (E * pyval)) (e : E) :
  (forall e1 e2 : E, value e1 = value e2 -> e1 = e2) ->
  dict_lookup (value e) (map (fun item => (value (fst item), snd item)) t)
    = dict_lookup e t.
Proof.
  intros Hinj. induction t as [|[e' v] t IH]; cbn; [reflexivity|].
  destruct (decide (e' = e)) as [->|Hne].
  - now rewrite decide_True.
  - rewrite decide_False by (intros Heq; apply Hne, Hinj, Heq). exact IH.
Qed.

(** X4: when the accepted answer is an object whose keys are all wire codes
    of the key enumeration, the three table queries return a table with the
    same items in the same order, each key replaced by the member it is the
    wire code of: re-encoding the keys gives the answer back, and a member is
    mapped to what the answer holds under its wire code.  No context is
    touched. *)
Theorem tables_decode_keys (self : GetAltsClient) (w : world)
    (d : list (string * pyval)) :
  dict_lookup "error" d = None ->
  List.NoDup (map fst d) ->
  (Forall (fun k => exists e : Service, enum_of_value k = Some e) (map fst d) ->
   (forall country,
      remote w (sent w)
        (request_for self "get_amount" (Some [("country", PStr (value country))]))
        = Body (PDict d) ->
      exists t w',
        get_available_numbers_count self country w = (Return t, w') /\
        heap w' = heap w /\
        map (fun item => (value (fst item), snd item)) t = d /\
        forall e : Service, dict_lookup e t = dict_lookup (value e) d) /\
   (forall country,
      remote w (sent w)
        (request_for self "get_prices_by_country"
           (Some [("country", PStr (value country))]))
        = Body (PDict d) ->
      exists t w',
        get_prices_by_country self country w = (Return t, w') /\
        heap w' = heap w /\
        map (fun item => (value (fst item), snd item)) t = d /\
        forall e : Service, dict_lookup e t = dict_lookup (value e) d)) /\
  (Forall (fun k => exists e : Country, enum_of_value k = Some e) (map fst d) ->
   forall service,
     remote w (sent w)
       (request_for self "get_prices_by_service"
          (Some [("service", PStr (value service))]))
       = Body (PDict d) ->
     exists t w',
       get_prices_by_service self service w = (Return t, w') /\
       heap w' = heap w /\
       map (fun item => (value (fst item), snd item)) t = d /\
       forall e : Country, dict_lookup e t = dict_lookup (value e) d).
Proof.
  intros He Hnd. split.
  - intros Hall.
    split; intros country Hb;
      [unfold get_available_numbers_count | unfold get_prices_by_country];
      rewrite (bind_Return _ _ _ _ _ (_get_payload self _ _ w d Hb He));
      cbn [py_items]; unfold bind at 1, ret at 1;
      match goal with
      | |- context [enum_keyed d [] ?w1] =>
          destruct (enum_keyed_decodes (E := Service) d [] w1 Hall Hnd)
            as (t & Hrun & Ht)
      end;
      exists t; eexists; (split; [exact Hrun|]); (split; [reflexivity|]);
      (split; [exact Ht|]);
      intros e; rewrite <- Ht;
      symmetry; apply dict_lookup_decoded, value_inj_of_complete, Service_complete.
  - intros Hall service Hb. unfold get_prices_by_service.
    rewrite (bind_Return _ _ _ _ _ (_get_payload self _ _ w d Hb He)).
    cbn [py_items]. unfold bind at 1, ret at 1.
    match goal with
    | |- context [enum_keyed d [] ?w1] =>
        destruct (enum_keyed_decodes (E := Country) d [] w1 Hall Hnd)
          as (t & Hrun & Ht)
    end.
    exists t. eexists. split; [exact Hrun|]. split; [reflexivity|].
    split; [exact Ht|].
    intros e. rewrite <- Ht.
    symmetry. apply dict_lookup_decoded, value_inj_of_complete, Country_complete.
Qed.

Lemma tables_decode_keys_example :
  exists t w',
    get_prices_by_service example_client Telegram
      (example_world [] [] [Body (PDict [("ru", PInt 12); ("tg", PInt 30)])])
      = (Return t, w') /\
    heap w' = [] /\
    map (fun item => (value (fst item), snd item)) t
      = [("ru", PInt 12); ("tg", PInt 30)] /\
    forall e : Country,
      dict_lookup e t = dict_lookup (value e) [("ru", PInt 12); ("tg", PInt 30)].
Proof.
  refine (proj2 (tables_decode_keys example_client
                   (example_world [] [] [Body (PDict [("ru", PInt 12); ("tg", PInt 30)])])
                   [("ru", PInt 12); ("tg", PInt 30)] eq_refl _) _ Telegram eq_refl).
  - repeat constructor; cbn; intuition discriminate.
  - repeat constructor; [exists Russia | exists Chad]; reflexivity.
Defined.

(** ** Answers that are not objects *)

Lemma py_getitem_non_object (v : pyval) (key : string) (w : world) :
  (forall d, v <> PDict d) -> py_getitem v key w = (Raise TypeError, w).
Proof. intros Hv. destruct v; try reflexivity. now destruct (Hv d). Qed.

Lemma py_items_non_object (v : pyval) (w : world) :
  (forall d, v <> PDict d) -> py_items v w = (Raise AttributeError, w).
Proof. intros Hv. destruct v; try reflexivity. now destruct (Hv d). Qed.

(** [_get] either raises [TypeError] on such an answer (a number, a boolean,
    null, or a list or string that contains "error") or hands it on; whoever
    then treats it as a dictionary raises in turn. *)
Lemma bind_get_non_object {A} (self : GetAltsClient) (endpoint : string)
    (query_params : option (list (string * pyval))) (k : pyval -> M A)
    (v : pyval) (e2 : exn) (w : world) :
  remote w (sent w) (request_for self endpoint query_params) = Body v ->
  (forall d, v <> PDict d) ->
  (forall w1, k v w1 = (Raise e2, w1)) ->
  exists e w',
    (e = TypeError \/ e = e2) /\
    bind (_get self endpoint query_params) k w = (Raise e, w') /\
    heap w' = heap w /\ sent w' = S (sent w).
Proof.
  intros Hb Hv Hk. unfold bind.
  destruct (_get self endpoint query_params w) as [[v'|e] w1] eqn:Hget.
  - pose proof Hget as Hfr. apply _get_frame in Hfr as (Hh & _ & Hs & _).
    assert (v' = v) as ->.
    { revert Hget. unfold _get, bind, log, emit, http_get. cbn. rewrite Hb.
      destruct (py_contains "error" v _) as [[[]|e] w2] eqn:Hc;
        apply py_contains_world in Hc as ->.
      - rewrite py_getitem_non_object by exact Hv. discriminate.
      - cbn. unfold ret. congruence.
      - discriminate. }
    rewrite Hk. exists e2, w1. auto.
  - pose proof Hget as Hfr. apply _get_frame in Hfr as (Hh & _ & Hs & _).
    exists e, w1. split; [|auto]. left.
    revert Hget. unfold _get, bind, log, emit, http_get. cbn. rewrite Hb.
    destruct (py_contains "error" v _) as [[[]|e'] w2] eqn:Hc.
    + apply py_contains_world in Hc as ->.
      rewrite py_getitem_non_object by exact Hv. congruence.
    + cbn. discriminate.
    + destruct v; cbn in Hc; try (now destruct (Hv d)); unfold ret, raise in Hc;
        congruence.
Qed.

(** X5: when the decoded answer is not an object (a list, a string, a
    number, a boolean or null), no operation returns a result: the balance
    query, the purchase and the status operations raise [TypeError], the
    table queries raise [TypeError] or [AttributeError]; no context is
    created or changed, and [cancel_activation] does not fall back. *)
Theorem non_object_answer_raises (self : GetAltsClient) (w : world) (v : pyval) :
  (forall d, v <> PDict d) ->
  (remote w (sent w) (request_for self "get_balance" None) = Body v ->
   exists w', get_balance self w = (Raise TypeError, w') /\ heap w' = heap w) /\
  (forall service country,
     remote w (sent w)
       (request_for self "buy_number"
          (Some [("service", PStr (value service));
                 ("country", PStr (value country))])) = Body v ->
     exists w',
       buy_number self service country w = (Raise TypeError, w') /\
       heap w' = heap w) /\
  (forall r c,
     heap w !! r = Some c ->
     (remote w (sent w) (status_query self c) = Body v ->
      exists w',
        get_activation_status self r w = (Raise TypeError, w') /\ heap w' = heap w) /\
     (forall a : _Action,
        remote w (sent w)
          (request_for self "set_activation_status"
             (Some [("activation_id", activation_id c);
                    ("status", PStr (lower (value a)))])) = Body v ->
        exists w',
          _set_activation_status self r a w = (Raise TypeError, w') /\
          heap w' = heap w) /\
     (remote w (sent w)
        (request_for self "set_activation_status"
           (Some [("activation_id", activation_id c);
                  ("status", PStr (lower (value Cancel)))])) = Body v ->
      exists w',
        cancel_activation self r w = (Raise TypeError, w') /\
        heap w' = heap w /\ sent w' = S (sent w))) /\
  (forall country,
     (remote w (sent w)
        (request_for self "get_amount" (Some [("country", PStr (value country))]))
        = Body v ->
      exists e w',
        (e = TypeError \/ e = AttributeError) /\
        get_available_numbers_count self country w = (Raise e, w') /\
        heap w' = heap w) /\
     (remote w (sent w)
        (request_for self "get_prices_by_country"
           (Some [("country", PStr (value country))])) = Body v ->
      exists e w',
        (e = TypeError \/ e = AttributeError) /\
        get_prices_by_country self country w = (Raise e, w') /\
        heap w' = heap w)) /\
  (forall service,
     remote w (sent w)
       (request_for self "get_prices_by_service"
          (Some [("service", PStr (value service))])) = Body v ->
     exists e w',
       (e = TypeError \/ e = AttributeError) /\
       get_prices_by_service self service w = (Raise e, w') /\
       heap w' = heap w).
Proof.
  intros Hv.
  assert (Hstatus : forall r w1,
             __context_from_response r v w1 = (Raise TypeError, w1)).
  { intros r w1. unfold __context_from_response.
    now rewrite (bind_Raise _ _ _ _ _ (py_getitem_non_object v "status" w1 Hv)). }
  assert (Hsame : forall e : exn, e = TypeError \/ e = TypeError -> e = TypeError)
    by (intros e [|]; assumption).
  split; [|split; [|split; [|split]]].
  - intros Hb.
    destruct (bind_get_non_object self _ _ (fun response => py_getitem response "balance")
                v TypeError w Hb Hv) as (e & w' & He & Hrun & Hh & _).
    { intros w1. now apply py_getitem_non_object. }
    apply Hsame in He as ->. now exists w'.
  - intros service country Hb.
    destruct (bind_get_non_object self _ _ _from_dict v TypeError w Hb Hv)
      as (e & w' & He & Hrun & Hh & _).
    { intros w1. unfold _from_dict.
      now rewrite (bind_Raise _ _ _ _ _ (py_getitem_non_object v "phone_number" w1 Hv)). }
    apply Hsame in He as ->. now exists w'.
  - intros r c Hr.
    assert (Hset : forall a : _Action,
               remote w (sent w)
                 (request_for self "set_activation_status"
                    (Some [("activation_id", activation_id c);
                           ("status", PStr (lower (value a)))])) = Body v ->
               exists w',
                 _set_activation_status self r a w = (Raise TypeError, w') /\
                 heap w' = heap w /\ sent w' = S (sent w)).
    { intros a Hb. rewrite (_set_activation_status_exchange self r a c w Hr).
      destruct (bind_get_non_object self _ _ (__context_from_response r) v TypeError
                  w Hb Hv (Hstatus r)) as (e & w' & He & Hrun & Hh & Hs).
      apply Hsame in He as ->. now exists w'. }
    split; [|split].
    + intros Hb. rewrite (get_activation_status_exchange self r c w Hr).
      destruct (bind_get_non_object self _ _ (__context_from_response r) v TypeError
                  w Hb Hv (Hstatus r)) as (e & w' & He & Hrun & Hh & _).
      apply Hsame in He as ->. now exists w'.
    + intros a Hb. destruct (Hset a Hb) as (w' & Hrun & Hh & _). now exists w'.
    + intros Hb. destruct (Hset Cancel Hb) as (w' & Hrun & Hh & Hs).
      exists w'. unfold cancel_activation. now rewrite Hrun.
  - intros country. split; intros Hb;
      [unfold get_available_numbers_count | unfold get_prices_by_country];
      match goal with
      | |- context [bind (_get self ?ep ?qp) ?k w] =>
          destruct (bind_get_non_object self ep qp k v AttributeError w Hb Hv)
            as (e & w' & He & Hrun & Hh & _);
          [intros w1; now rewrite (bind_Raise _ _ _ _ _ (py_items_non_object v w1 Hv))|]
      end; now exists e, w'.
  - intros service Hb. unfold get_prices_by_service.
    match goal with
    | |- context [bind (_get self ?ep ?qp) ?k w] =>
        destruct (bind_get_non_object self ep qp k v AttributeError w Hb Hv)
          as (e & w' & He & Hrun & Hh & _);
        [intros w1; now rewrite (bind_Raise _ _ _ _ _ (py_items_non_object v w1 Hv))|]
    end. now exists e, w'.
Qed.

(** The answer is the JSON text [[]]. *)
Lemma non_object_answer_example :
  let w := example_world [example_context] [] [Body (PList [])] in
  exists w',
    cancel_activation example_client 0%nat w = (Raise TypeError, w') /\
    heap w' = heap w /\ sent w' = S (sent w).
Proof.
  refine (proj2 (proj2 (proj1 (proj2 (proj2
            (non_object_answer_raises example_client
               (example_world [example_context] [] [Body (PList [])])
               (PList []) _)))
            0%nat example_context eq_refl)) eq_refl).
  discriminate.
Defined.

(** ** Failed and cancelled lifecycle calls *)

Lemma cancel_activation_frame (self : GetAltsClient) (r : ref)
    (c : ActivationContext) (w w' : world) (res : result ref) :
  heap w !! r = Some c ->
  cancel_activation self r w = (res, w') ->
  (sent w' = S (sent w) \/ sent w' = S (S (sent w))) /\
  match res with
  | Return r' => r' = r /\ exists st v, heap w' = <[r := merged c st v]> (heap w)
  | Raise _ => heap w' = heap w
  end.
Proof.
  intros Hr. unfold cancel_activation.
  destruct (_set_activation_status self r Cancel w) as [res1 w1] eqn:Hx.
  pose proof Hx as Hx'.
  rewrite (_set_activation_status_exchange self r Cancel c w Hr) in Hx'.
  apply (exchange_frame self _ _ r c) in Hx' as (_ & Hs1 & _ & _ & _ & Hres1);
    [|exact Hr].
  destruct res1 as [r1|e].
  { intros [= <- <-]. split; [now left | exact Hres1]. }
  destruct e; try (intros [= <- <-]; split; [now left | exact Hres1]).
  unfold bind at 1, log, emit, mark_number_as_already_used.
  match goal with
  | |- _set_activation_status self r AlreadyUsed ?w2 = _ -> _ => set (w2' := w2)
  end.
  assert (Hr2 : heap w2' !! r = Some c) by (cbn; now rewrite Hres1).
  rewrite (_set_activation_status_exchange self r AlreadyUsed c w2' Hr2).
  intros Hm.
  apply (exchange_frame self _ _ r c) in Hm as (_ & Hs2 & _ & _ & _ & Hres2);
    [|exact Hr2].
  cbn in Hs2, Hres2. rewrite Hres1 in Hres2.
  split; [right; now rewrite Hs2, Hs1 | exact Hres2].
Qed.

(** X6: a status query, a status change, one of the four wrappers or a
    cancellation that raises, whatever the exception, leaves every context
    as it was. *)
Theorem failed_lifecycle_call_changes_nothing (self : GetAltsClient) (r : ref)
    (c : ActivationContext) (w w' : world) (a : _Action) (op : M ref) (e : exn) :
  heap w !! r = Some c ->
  In op [get_activation_status self r; _set_activation_status self r a;
         set_ready_for_code self r; end_activation self r;
         send_another_code self r; mark_number_as_already_used self r;
         cancel_activation self r] ->
  op w = (Raise e, w') ->
  heap w' = heap w.
Proof.
  intros Hr Hop Hrun. cbn in Hop.
  destruct Hop as [<-|[<-|[<-|[<-|[<-|[<-|[<-|[]]]]]]]].
  - rewrite (get_activation_status_exchange self r c w Hr) in Hrun.
    now apply (exchange_frame self _ _ r c) in Hrun as (_ & _ & _ & _ & _ & ->).
  - now apply (_set_activation_status_heap self r c a w w' e Hr).
  - now apply (_set_activation_status_heap self r c SendSMS w w' e Hr).
  - now apply (_set_activation_status_heap self r c End_ w w' e Hr).
  - now apply (_set_activation_status_heap self r c SendAnotherCode w w' e Hr).
  - now apply (_set_activation_status_heap self r c AlreadyUsed w w' e Hr).
  - now apply (cancel_activation_frame self r c w w' _ Hr) in Hrun as [_ ->].
Qed.

(** The service times out in the middle of [end_activation]. *)
Lemma failed_lifecycle_call_example :
  heap (snd (end_activation example_client 0%nat
               (example_world [example_context] [] [])))
    = [example_context].
Proof.
  exact (failed_lifecycle_call_changes_nothing example_client 0%nat
           example_context (example_world [example_context] [] [])
           (snd (end_activation example_client 0%nat
                   (example_world [example_context] [] [])))
           Cancel
           (end_activation example_client 0%nat) (TransportError TimeoutError)
           eq_refl (or_intror (or_intror (or_intror (or_introl eq_refl))))
           eq_refl).
Defined.

(** X7: a cancellation that returns, returns the reference it was given,
    and the heap differs from the one before at that reference only, where
    the object has kept its phone number and activation id; whether it
    returns or raises, it has sent one request or two. *)
Theorem cancel_activation_updates_in_place (self : GetAltsClient) (r : ref)
    (c : ActivationContext) (w w' : world) (res : result ref) :
  heap w !! r = Some c ->
  cancel_activation self r w = (res, w') ->
  (sent w' = S (sent w) \/ sent w' = S (S (sent w))) /\
  forall r', res = Return r' ->
    r' = r /\
    exists c',
      heap w' = <[r := c']> (heap w) /\
      phone_number c' = phone_number c /\ activation_id c' = activation_id c.
Proof.
  intros Hr Hrun.
  apply (cancel_activation_frame self r c) in Hrun as [Hs Hres]; [|exact Hr].
  split; [exact Hs|]. intros r' ->.
  destruct Hres as [-> (st & v & ->)]. split; [reflexivity|].
  now exists (merged c st v).
Qed.

Lemma cancel_activation_updates_in_place_example :
  let w := example_world [example_context] []
             [Body (PDict answer_rejected); Body (PDict answer_code)] in
  (sent (snd (cancel_activation example_client 0%nat w)) = 1%nat \/
   sent (snd (cancel_activation example_client 0%nat w)) = 2%nat) /\
  forall r', fst (cancel_activation example_client 0%nat w) = Return r' ->
    r' = 0%nat /\
    exists c',
      heap (snd (cancel_activation example_client 0%nat w)) = <[0%nat := c']> (heap w) /\
      phone_number c' = PStr "+79001234567" /\ activation_id c' = PInt 42.
Proof.
  exact (cancel_activation_updates_in_place example_client 0%nat example_context
           (example_world [example_context] []
              [Body (PDict answer_rejected); Body (PDict answer_code)])
           (snd (cancel_activation example_client 0%nat
                   (example_world [example_context] []
                      [Body (PDict answer_rejected); Body (PDict answer_code)])))
           (fst (cancel_activation example_client 0%nat
                   (example_world [example_context] []
                      [Body (PDict answer_rejected); Body (PDict answer_code)])))
           eq_refl (surjective_pairing _)).
Defined.

Lemma cancel_activation_rejected (self : GetAltsClient) (r : ref)
    (c : ActivationContext) (w : world) (d1 : list (string * pyval)) (e1 : pyval) :
  heap w !! r = Some c ->
  remote w (sent w)
    (request_for self "set_activation_status"
       (Some [("activation_id", activation_id c);
              ("status", PStr (lower (value Cancel)))])) = Body (PDict d1) ->
  dict_lookup "error" d1 = Some e1 ->
  cancel_activation self r w =
    exchange self "set_activation_status"
      (Some [("activation_id", activation_id c);
             ("status", PStr (lower (value AlreadyUsed)))]) r
      {| heap := heap w; clock := clock w; ticks := ticks w; remote := remote w;
         sent := S (sent w);
         trace := trace w ++
           [EvLog (DebugMakingRequest "set_activation_status"
                     (Some [("activation_id", activation_id c);
                            ("status", PStr (lower (value Cancel)))]));
            EvRequest
              (request_for self "set_activation_status"
                 (Some [("activation_id", activation_id c);
                        ("status", PStr (lower (value Cancel)))]));
            EvLog InfoCancellingNotPossible] |}.
Proof.
  intros Hr Hb1 He1. unfold cancel_activation.
  rewrite (_set_activation_status_exchange self r Cancel c w Hr).
  rewrite (exchange_rejected self _ _ r d1 e1 w Hb1 He1).
  unfold bind at 1, log, emit, mark_number_as_already_used. cbn.
  rewrite <- app_assoc. cbn.
  now apply _set_activation_status_exchange.
Qed.

(** X8: when the remote service rejects the cancellation, the outcome of
    [cancel_activation] is decided by the second answer, the one to the
    request for AlreadyUsed: if it is accepted the context takes its status
    and code; if it is rejected too, that second error is raised; if the
    transport fails, that failure is raised.  When the transport fails on
    the cancellation itself, the failure is raised after that one request. *)
Theorem cancel_activation_outcomes (self : GetAltsClient) (r : ref)
    (c : ActivationContext) (w : world) :
  heap w !! r = Some c ->
  let cancel_request :=
    request_for self "set_activation_status"
      (Some [("activation_id", activation_id c); ("status", PStr "cancel")]) in
  let used_request :=
    request_for self "set_activation_status"
      (Some [("activation_id", activation_id c); ("status", PStr "already_used")]) in
  (forall f,
     remote w (sent w) cancel_request = Failure f ->
     exists w',
       cancel_activation self r w = (Raise (TransportError f), w') /\
       sent w' = S (sent w) /\ heap w' = heap w) /\
  (forall d1 e1,
     remote w (sent w) cancel_request = Body (PDict d1) ->
     dict_lookup "error" d1 = Some e1 ->
     (forall d2 st v,
        remote w (S (sent w)) used_request = Body (PDict d2) ->
        successful_answer d2 st v ->
        exists w',
          cancel_activation self r w = (Return r, w') /\
          heap w' = <[r := merged c st v]> (heap w)) /\
     (forall d2 e2,
        remote w (S (sent w)) used_request = Body (PDict d2) ->
        dict_lookup "error" d2 = Some e2 ->
        exists w',
          cancel_activation self r w = (Raise (GetAltsAPIError e2), w') /\
          heap w' = heap w) /\
     (forall f,
        remote w (S (sent w)) used_request = Failure f ->
        exists w',
          cancel_activation self r w = (Raise (TransportError f), w') /\
          heap w' = heap w)).
Proof.
  intros Hr. cbv zeta.
  change (PStr "cancel") with (PStr (lower (value Cancel))).
  change (PStr "already_used") with (PStr (lower (value AlreadyUsed))).
  split.
  - intros f Hb. unfold cancel_activation.
    rewrite (_set_activation_status_exchange self r Cancel c w Hr).
    unfold exchange. rewrite (bind_Raise _ _ _ _ _ (_get_failed self _ _ w f Hb)).
    eexists. repeat split.
  - intros d1 e1 Hb1 He1.
    rewrite (cancel_activation_rejected self r c w d1 e1 Hr Hb1 He1).
    split; [|split].
    + intros d2 st v Hb2 (He2 & (s & Hs & Hst) & Hv).
      rewrite exchange_ok with (c := c) (d := d2) (s := s) (st := st);
        [|assumption..].
      eexists. split; [reflexivity|]. cbn. now rewrite Hv.
    + intros d2 e2 Hb2 He2.
      rewrite exchange_rejected with (d := d2) (e := e2); [|assumption..].
      eexists. split; reflexivity.
    + intros f Hb2. unfold exchange.
      rewrite bind_Raise with (e := TransportError f)
        (w' := snd (_get self "set_activation_status"
                      (Some [("activation_id", activation_id c);
                             ("status", PStr (lower (value AlreadyUsed)))])
                      {| heap := heap w; clock := clock w; ticks := ticks w;
                         remote := remote w; sent := S (sent w);
                         trace := trace w ++
                           [EvLog (DebugMakingRequest "set_activation_status"
                                     (Some [("activation_id", activation_id c);
                                            ("status", PStr (lower (value Cancel)))]));
                            EvRequest
                              (request_for self "set_activation_status"
                                 (Some [("activation_id", activation_id c);
                                        ("status", PStr (lower (value Cancel)))]));
                            EvLog InfoCancellingNotPossible] |}));
        [|now rewrite _get_failed with (f := f)].
      eexists. split; [reflexivity|].
      now rewrite _get_failed with (f := f).
Qed.

Lemma cancel_activation_outcomes_example :
  let w := example_world [example_context] []
             [Body (PDict answer_rejected); Body (PDict answer_rejected)] in
  exists w',
    cancel_activation example_client 0%nat w
      = (Raise (GetAltsAPIError (PStr "NO_BALANCE")), w') /\
    heap w' = heap w.
Proof.
  exact (proj1 (proj2 (proj2 (cancel_activation_outcomes example_client 0%nat
                                example_context
                                (example_world [example_context] []
                                   [Body (PDict answer_rejected);
                                    Body (PDict answer_rejected)])
                                eq_refl)
                         answer_rejected (PStr "NO_BALANCE") eq_refl eq_refl))
           answer_rejected (PStr "NO_BALANCE") eq_refl eq_refl).
Defined.

(** ** Purchases *)

Lemma _from_dict_frame (data : pyval) (w w' : world) (res : result ref) :
  _from_dict data w = (res, w') ->
  sent w' = sent w /\
  match res with
  | Return r => r = length (heap w) /\ exists c, heap w' = heap w ++ [c]
  | Raise _ => heap w' = heap w
  end.
Proof.
  unfold _from_dict, bind.
  destruct (py_getitem data "phone_number" w) as [[p|e] w1] eqn:H1;
    apply py_getitem_world in H1 as ->; [|intros [= <- <-]; now split].
  destruct (py_getitem data "activation_id" w) as [[a|e] w1] eqn:H2;
    apply py_getitem_world in H2 as ->; [|intros [= <- <-]; now split].
  destruct (py_getitem data "status" w) as [[s|e] w1] eqn:H3;
    apply py_getitem_world in H3 as ->; [|intros [= <- <-]; now split].
  destruct (enum_call (E := Status) s w) as [[st|e] w1] eqn:H4;
    apply enum_call_world in H4 as ->; [|intros [= <- <-]; now split].
  unfold new. intros [= <- <-]. cbn. eauto.
Qed.

(** X9: [buy_number] sends one request; when it returns, exactly one object
    has been appended to the heap and the result refers to it; when it
    raises, whatever the exception, no object has been created.  In both
    cases the contexts that existed are as they were. *)
Theorem buy_number_creates_one_or_none (self : GetAltsClient) (service : Service)
    (country : Country) (w w' : world) (res : result ref) :
  buy_number self service country w = (res, w') ->
  sent w' = S (sent w) /\
  (forall j c0, heap w !! j = Some c0 -> heap w' !! j = Some c0) /\
  match res with
  | Return r => r = length (heap w) /\ length (heap w') = S (length (heap w))
  | Raise _ => heap w' = heap w
  end.
Proof.
  unfold buy_number, bind.
  destruct (_get self _ _ w) as [[response|e] w1] eqn:Hget;
    apply _get_frame in Hget as (Hh & _ & Hs & _).
  - intros Hfd. apply _from_dict_frame in Hfd as [Hs' Hres].
    rewrite Hs', Hs, Hh in *. split; [reflexivity|].
    destruct res as [r|e].
    + destruct Hres as [-> [c ->]]. split.
      * intros j c0 Hj. now apply lookup_app_l_Some.
      * split; [reflexivity|]. rewrite length_app. cbn. lia.
    + rewrite Hres. auto.
  - intros [= <- <-]. rewrite Hh. auto.
Qed.

Lemma buy_number_creates_one_or_none_example :
  let w := example_world [example_context] []
             [Body (PDict [("phone_number", PStr "+7900"); ("status", PStr "READY")])] in
  sent (snd (buy_number example_client Telegram Russia w)) = 1%nat /\
  (forall j c0, heap w !! j = Some c0 ->
     heap (snd (buy_number example_client Telegram Russia w)) !! j = Some c0) /\
  heap (snd (buy_number example_client Telegram Russia w)) = heap w.
Proof.
  exact (buy_number_creates_one_or_none example_client Telegram Russia
           (example_world [example_context] []
              [Body (PDict [("phone_number", PStr "+7900"); ("status", PStr "READY")])])
           (snd (buy_number example_client Telegram Russia
                   (example_world [example_context] []
                      [Body (PDict [("phone_number", PStr "+7900");
                                    ("status", PStr "READY")])])))
           (Raise (KeyError "activation_id")) eq_refl).
Defined.

(** X10: for an accepted answer, [buy_number] looks for "phone_number",
    "activation_id" and "status" in this order and raises [KeyError] with
    the first that is missing; a status that is not the wire code of a
    member (or not a string at all) raises [ValueError]; otherwise the call
    returns the new reference. *)
Theorem buy_number_checks_fields (self : GetAltsClient) (service : Service)
    (country : Country) (w : world) (d : list (string * pyval)) :
  remote w (sent w)
    (request_for self "buy_number"
       (Some [("service", PStr (value service));
              ("country", PStr (value country))])) = Body (PDict d) ->
  dict_lookup "error" d = None ->
  fst (buy_number self service country w) =
    match dict_lookup "phone_number" d, dict_lookup "activation_id" d,
          dict_lookup "status" d with
    | None, _, _ => Raise (KeyError "phone_number")
    | Some _, None, _ => Raise (KeyError "activation_id")
    | Some _, Some _, None => Raise (KeyError "status")
    | Some _, Some _, Some (PStr s) =>
        match enum_of_value (E := Status) s with
        | Some _ => Return (length (heap w))
        | None => Raise (ValueError (PStr s))
        end
    | Some _, Some _, Some v => Raise (ValueError v)
    end.
Proof.
  intros Hb He. unfold buy_number.
  rewrite (bind_Return _ _ _ _ _ (_get_payload self _ _ w d Hb He)).
  unfold _from_dict, bind. cbn [py_getitem].
  destruct (dict_lookup "phone_number" d) as [p|]; [|reflexivity].
  destruct (dict_lookup "activation_id" d) as [a|]; [|reflexivity].
  destruct (dict_lookup "status" d) as [v|]; [|reflexivity].
  cbn. destruct v; try reflexivity.
  unfold enum_call. destruct (enum_of_value s); reflexivity.
Qed.

Lemma buy_number_checks_fields_example :
  fst (buy_number example_client Telegram Russia
         (example_world [] [] [Body (PDict [("phone_number", PStr "+7900");
                                            ("activation_id", PInt 42);
                                            ("status", PInt 1)])]))
    = Raise (ValueError (PInt 1)).
Proof.
  exact (buy_number_checks_fields example_client Telegram Russia
           (example_world [] [] [Body (PDict [("phone_number", PStr "+7900");
                                              ("activation_id", PInt 42);
                                              ("status", PInt 1)])])
           [("phone_number", PStr "+7900"); ("activation_id", PInt 42);
            ("status", PInt 1)] eq_refl eq_refl).
Defined.

(** ** Status answers *)

(** X11: for an accepted answer, a status query or a status change returns
    the reference it was given when the answer has a "status" that is the
    wire code of a member; it raises [KeyError] when the answer has no
    "status", and [ValueError] when the status is anything else.  In the two
    failing cases the context keeps its status and its code, also when the
    answer carries a "code". *)
Theorem status_answer_needs_status (self : GetAltsClient) (r : ref)
    (c : ActivationContext) (w : world) (d : list (string * pyval)) :
  heap w !! r = Some c ->
  dict_lookup "error" d = None ->
  let outcome :=
    match dict_lookup "status" d with
    | None => Raise (KeyError "status")
    | Some (PStr s) =>
        match enum_of_value (E := Status) s with
        | Some _ => Return r
        | None => Raise (ValueError (PStr s))
        end
    | Some v => Raise (ValueError v)
    end in
  (remote w (sent w) (status_query self c) = Body (PDict d) ->
   fst (get_activation_status self r w) = outcome /\
   (forall e, outcome = Raise e ->
      heap (snd (get_activation_status self r w)) = heap w)) /\
  (forall a : _Action,
     remote w (sent w)
       (request_for self "set_activation_status"
          (Some [("activation_id", activation_id c);
                 ("status", PStr (lower (value a)))])) = Body (PDict d) ->
     fst (_set_activation_status self r a w) = outcome /\
     (forall e, outcome = Raise e ->
        heap (snd (_set_activation_status self r a w)) = heap w)).
Proof.
  intros Hr He outcome.
  assert (Hx : forall endpoint query_params,
             remote w (sent w) (request_for self endpoint query_params)
               = Body (PDict d) ->
             fst (exchange self endpoint query_params r w) = outcome /\
             (forall e, outcome = Raise e ->
                heap (snd (exchange self endpoint query_params r w)) = heap w)).
  { intros endpoint query_params Hb.
    assert (Hfst : fst (exchange self endpoint query_params r w) = outcome).
    { unfold exchange.
      rewrite (bind_Return _ _ _ _ _ (_get_payload self _ _ w d Hb He)).
      subst outcome.
      destruct (dict_lookup "status" d) as [v|] eqn:Hs;
        [|unfold __context_from_response, bind; cbn [py_getitem]; now rewrite Hs].
      destruct v as [| | | |s| |];
        try (unfold __context_from_response, bind; cbn [py_getitem];
             now rewrite Hs).
      destruct (enum_of_value (E := Status) s) as [st|] eqn:Hst.
      - rewrite __context_from_response_ok with (c := c) (s := s) (st := st);
          [reflexivity|assumption..].
      - unfold __context_from_response, bind; cbn [py_getitem].
        rewrite Hs. unfold ret at 1, enum_call. now rewrite Hst. }
    split; [exact Hfst|]. intros e Hout.
    destruct (exchange self endpoint query_params r w) as [res w'] eqn:Hrun.
    cbn in Hfst |- *. rewrite Hout in Hfst. subst res.
    now apply (exchange_frame self _ _ r c) in Hrun as (_ & _ & _ & _ & _ & ->). }
  split.
  - intros Hb. rewrite (get_activation_status_exchange self r c w Hr).
    now apply Hx.
  - intros a Hb. rewrite (_set_activation_status_exchange self r a c w Hr).
    now apply Hx.
Qed.

Lemma status_answer_needs_status_example :
  let w := example_world [example_context] [] [Body (PDict [("code", PInt 7)])] in
  fst (get_activation_status example_client 0%nat w) = Raise (KeyError "status") /\
  (forall e, Raise (A := ref) (KeyError "status") = Raise e ->
     heap (snd (get_activation_status example_client 0%nat w)) = heap w).
Proof.
  exact (proj1 (status_answer_needs_status example_client 0%nat example_context
                  (example_world [example_context] [] [Body (PDict [("code", PInt 7)])])
                  [("code", PInt 7)] eq_refl eq_refl)
           eq_refl).
Defined.

(** ** A purchase followed by a status query *)

(** X12: the activation id received with a purchase is the one the next
    status query on the returned context asks for, and after that query the
    context holds the phone number and the id of the purchase together with
    the status and the code of the query's answer. *)
Theorem purchase_then_status_query (self : GetAltsClient) (service : Service)
    (country : Country) (w : world) (d d2 : list (string * pyval)) (p a : pyval)
    (s : string) (st st2 : Status) (v2 : pyval) :
  remote w (sent w)
    (request_for self "buy_number"
       (Some [("service", PStr (value service));
              ("country", PStr (value country))])) = Body (PDict d) ->
  dict_lookup "error" d = None ->
  dict_lookup "phone_number" d = Some p ->
  dict_lookup "activation_id" d = Some a ->
  dict_lookup "status" d = Some (PStr s) ->
  enum_of_value s = Some st ->
  remote w (S (sent w))
    (request_for self "get_activation_status" (Some [("activation_id", a)]))
    = Body (PDict d2) ->
  successful_answer d2 st2 v2 ->
  exists r w1 w2,
    buy_number self service country w = (Return r, w1) /\
    get_activation_status self r w1 = (Return r, w2) /\
    heap w2 = heap w ++ [{| phone_number := p; activation_id := a;
                            status := st2; code := v2 |}] /\
    sent w2 = S (S (sent w)).
Proof.
  intros Hb He Hp Ha Hs Hst Hb2 (He2 & (s2 & Hs2 & Hst2) & Hv2).
  set (c := {| phone_number := p; activation_id := a; status := st; code := PNone |}).
  set (w1 := {| heap := heap w ++ [c]; clock := clock w; ticks := ticks w;
                remote := remote w; sent := S (sent w);
                trace := trace w ++
                  [EvLog (DebugMakingRequest "buy_number"
                            (Some [("service", PStr (value service));
                                   ("country", PStr (value country))]));
                   EvRequest (request_for self "buy_number"
                                (Some [("service", PStr (value service));
                                       ("country", PStr (value country))]));
                   EvLog (DebugReceivedResponse (PDict d))] |}).
  assert (Hbuy : buy_number self service country w = (Return (length (heap w)), w1)).
  { unfold buy_number.
    rewrite (bind_Return _ _ _ _ _ (_get_payload self _ _ w d Hb He)).
    unfold _from_dict.
    rewrite (bind_Return _ _ _ _ _ (py_getitem_ok d _ p _ Hp)).
    rewrite (bind_Return _ _ _ _ _ (py_getitem_ok d _ a _ Ha)).
    rewrite (bind_Return _ _ _ _ _ (py_getitem_ok d _ (PStr s) _ Hs)).
    rewrite (bind_Return _ _ _ _ _ (enum_call_known s st _ Hst)).
    reflexivity. }
  assert (Hr1 : heap w1 !! length (heap w) = Some c)
    by (cbn; apply list_lookup_middle; reflexivity).
  exists (length (heap w)), w1. eexists. split; [exact Hbuy|].
  rewrite (get_activation_status_exchange self _ c w1 Hr1).
  rewrite exchange_ok with (c := c) (d := d2) (s := s2) (st := st2);
    [|first [assumption | exact Hb2]..].
  split; [reflexivity|]. cbn. split; [|reflexivity].
  rewrite Hv2.
  replace (length (heap w)) with (length (heap w) + 0)%nat by lia.
  now rewrite insert_app_r.
Qed.

Lemma purchase_then_status_query_example :
  exists r w1 w2,
    buy_number example_client Telegram Russia
      (example_world [] [] [Body (PDict answer_purchase); Body (PDict answer_code)])
      = (Return r, w1) /\
    get_activation_status example_client r w1 = (Return r, w2) /\
    heap w2 = [] ++ [{| phone_number := PStr "+7900"; activation_id := PInt 42;
                        status := StatusOk; code := PInt 4711 |}] /\
    sent w2 = 2%nat.
Proof.
  apply (purchase_then_status_query example_client Telegram Russia
           (example_world [] [] [Body (PDict answer_purchase); Body (PDict answer_code)])
           answer_purchase answer_code (PStr "+7900") (PInt 42) "READY" Ready StatusOk
           (PInt 4711)); try reflexivity.
  split; [reflexivity|]. split; [|reflexivity]. eexists. split; reflexivity.
Defined.

(** ** The wait, for any number of polls *)

Section PollMany.
Variable self : GetAltsClient.
Variable r : ref.
Variables start max_wait : Z.
Hypothesis in_range : 0 <= start + max_wait <= datetime_max.

(** [n] turns in time that find no code: [n] requests, [n] sleeps, and the
    loop is where it was, [n] readings of the clock later. *)
Lemma poll_until_code_waits (n : nat) :
  forall (fuel : nat) (c : ActivationContext) (ds : nat -> list (string * pyval))
         (sts : nat -> Status) (w : world),
    heap w !! r = Some c ->
    (forall i, (i < n)%nat ->
       clock w (i + ticks w)%nat <= start + max_wait /\
       remote w (i + sent w)%nat (status_query self c) = Body (PDict (ds i)) /\
       successful_answer (ds i) (sts i) PNone) ->
    exists w',
      poll_until_code (n + fuel) self r start max_wait w
        = poll_until_code fuel self r start max_wait w' /\
      clock w' = clock w /\ remote w' = remote w /\
      ticks w' = (n + ticks w)%nat /\ sent w' = (n + sent w)%nat /\
      heap w' = match n with
                | O => heap w
                | S m => <[r := merged c (sts m) PNone]> (heap w)
                end /\
      polls (trace w') = (n + polls (trace w))%nat /\
      sleeps (trace w') = (n + sleeps (trace w))%nat /\
      callbacks (trace w') = callbacks (trace w).
Proof.
  induction n as [|n IH]; intros fuel c ds sts w Hr Hall.
  - exists w. repeat split.
  - destruct (Hall O ltac:(lia)) as (Hc0 & Hb0 & Ha0).
    assert (Hlt : (r < length (heap w))%nat) by (eapply lookup_lt_Some; eassumption).
    cbn [poll_until_code plus].
    rewrite (poll_once_in_time self r start max_wait in_range c (ds O) (sts O) PNone
               w Hr Hc0 Hb0 Ha0).
    match goal with
    | |- context [poll_until_code (n + fuel) self r start max_wait ?w1] =>
        set (w1' := w1)
    end.
    destruct (IH fuel (merged c (sts O) PNone) (fun i => ds (S i))
                (fun i => sts (S i)) w1')
      as (w' & Hrun & Hck & Hrem & Htk & Hsn & Hhp & Hp & Hsl & Hcb).
    { cbn. now apply list_lookup_insert_eq. }
    { intros i Hi. destruct (Hall (S i) ltac:(lia)) as (Hci & Hbi & Hai).
      cbn [w1' clock ticks remote sent].
      rewrite !Nat.add_succ_r. auto. }
    exists w'. split; [exact Hrun|].
    rewrite Hck, Hrem, Htk, Hsn, Hp, Hsl, Hcb.
    cbn [w1' clock ticks remote sent trace].
    assert (Hurl : is_request_to "get_activation_status"
                     (EvRequest (status_query self c)) = true) by reflexivity.
    unfold polls, sleeps, callbacks. rewrite !count_events_app.
    cbn [count_events is_sleep is_callback app]. rewrite Hurl.
    cbn [is_request_to].
    repeat split; try lia.
    rewrite Hhp. cbn [w1' heap].
    destruct n; [reflexivity|].
    now rewrite list_insert_insert_eq.
Qed.
End PollMany.

Lemma poll_once_poll_raises (self : GetAltsClient) (r : ref) (start max_wait : Z)
    (w w2 : world) (e : exn) :
  0 <= start + max_wait <= datetime_max ->
  clock w (ticks w) <= start + max_wait ->
  get_activation_status self r
    {| heap := heap w; clock := clock w; ticks := S (ticks w); remote := remote w;
       sent := sent w; trace := trace w ++ [EvLog InfoCheckingActivationStatus] |}
    = (Raise e, w2) ->
  poll_once self r start max_wait w = (Raise e, w2).
Proof.
  intros Hrange Hearly Hrun. unfold poll_once, bind at 1, datetime_now.
  rewrite (bind_Return _ _ _ _ _ (datetime_add_ok _ _ _ Hrange)).
  cbn [clock]. destruct (Z.gtb_spec (clock w (ticks w)) (start + max_wait)); [lia|].
  unfold bind at 1, log, emit.
  now rewrite (bind_Raise _ _ _ _ _ Hrun).
Qed.

(** The context the loop finds after [n] polls without a code. *)
Lemma waited_context (r : ref) (c : ActivationContext) (sts : nat -> Status)
    (n : nat) (h : list ActivationContext) :
  h !! r = Some c ->
  match n with O => h | S m => <[r := merged c (sts m) PNone]> h end !! r
    = Some match n with O => c | S m => merged c (sts m) PNone end.
Proof.
  intros Hr. destruct n; [exact Hr|].
  apply list_lookup_insert_eq. eapply lookup_lt_Some; eassumption.
Qed.

(** X13: when the first [n] polls (possibly none) are answered in time
    without a code and the deadline is passed at the next check, the call
    raises [NoCodeReceived] after exactly [n] requests and [n] sleeps,
    without ever invoking the callback; the context holds the status of the
    last answer and no code. *)
Theorem wait_times_out_after_polls (n fuel : nat) (self : GetAltsClient)
    (cb : callback) (r : ref) (c : ActivationContext) (max_wait : Z) (w : world)
    (ds : nat -> list (string * pyval)) (sts : nat -> Status) :
  (n < fuel)%nat ->
  heap w !! r = Some c ->
  0 <= clock w (ticks w) + max_wait <= datetime_max ->
  (forall i, (i < n)%nat ->
     clock w (S i + ticks w)%nat <= clock w (ticks w) + max_wait /\
     remote w (i + sent w)%nat (status_query self c) = Body (PDict (ds i)) /\
     successful_answer (ds i) (sts i) PNone) ->
  clock w (S n + ticks w)%nat > clock w (ticks w) + max_wait ->
  exists w',
    register_code_received_callback fuel self cb r max_wait w
      = Some (Raise NoCodeReceived, w') /\
    polls (trace w') = (n + polls (trace w))%nat /\
    sleeps (trace w') = (n + sleeps (trace w))%nat /\
    callbacks (trace w') = callbacks (trace w) /\
    sent w' = (n + sent w)%nat /\
    heap w' = match n with
              | O => heap w
              | S m => <[r := merged c (sts m) PNone]> (heap w)
              end.
Proof.
  intros Hfuel Hr Hrange Hall Hlate.
  replace fuel with (n + S (fuel - S n))%nat by lia.
  unfold register_code_received_callback, datetime_now.
  match goal with
  | |- context [poll_until_code _ self r ?st max_wait ?w0] => set (w0' := w0)
  end.
  destruct (poll_until_code_waits self r _ max_wait Hrange n (S (fuel - S n))
              c ds sts w0')
    as (w1 & Hrun & Hck & Hrem & Htk & Hsn & Hhp & Hp & Hsl & Hcb).
  { exact Hr. }
  { intros i Hi. destruct (Hall i Hi) as (Hci & Hbi & Hai).
    cbn [w0' clock ticks remote sent]. rewrite Nat.add_succ_r. auto. }
  rewrite Hrun. cbn [poll_until_code].
  rewrite poll_once_timed_out;
    [|exact Hrange
     |rewrite Hck, Htk; cbn [w0' clock ticks]; now rewrite Nat.add_succ_r].
  eexists. split; [reflexivity|]. cbn [trace sent heap].
  rewrite Hp, Hsl, Hcb, Hsn, Hhp. repeat split.
Qed.

Lemma wait_times_out_after_polls_example :
  exists w',
    register_code_received_callback 2 example_client example_callback 0%nat 1000000
      (example_world [example_context]
         [example_time; example_time + 1; example_time + 5000100]
         [Body (PDict answer_waiting)])
      = Some (Raise NoCodeReceived, w') /\
    polls (trace w') = 1%nat /\ sleeps (trace w') = 1%nat /\
    callbacks (trace w') = 0%nat /\ sent w' = 1%nat /\
    heap w' = [merged example_context WaitingForCode PNone].
Proof.
  refine (wait_times_out_after_polls 1 2 example_client example_callback 0%nat
            example_context 1000000
            (example_world [example_context]
               [example_time; example_time + 1; example_time + 5000100]
               [Body (PDict answer_waiting)])
            (fun _ => answer_waiting) (fun _ => WaitingForCode) _ eq_refl _ _ eq_refl).
  - lia.
  - vm_compute. split; discriminate.
  - intros i Hi. assert (i = O) as -> by lia.
    split; [vm_compute; discriminate|]. split; [reflexivity|].
    split; [reflexivity|]. split; [|reflexivity]. eexists. split; reflexivity.
Defined.

(** X14: when the first [n] polls are answered in time without a code and
    the next one, still in time, with a code, the callback is invoked on the
    reference the call was given, after [n + 1] requests and [n] sleeps and
    not before; the context then holds the status and the code of the last
    answer, and the call returns when the callback returns and raises what
    the callback raises. *)
Theorem wait_ends_with_the_code (n fuel : nat) (self : GetAltsClient)
    (cb : callback) (r : ref) (c : ActivationContext) (max_wait : Z) (w : world)
    (ds : nat -> list (string * pyval)) (sts : nat -> Status)
    (d : list (string * pyval)) (st : Status) (v : pyval) :
  (n < fuel)%nat ->
  heap w !! r = Some c ->
  0 <= clock w (ticks w) + max_wait <= datetime_max ->
  (forall i, (i < n)%nat ->
     clock w (S i + ticks w)%nat <= clock w (ticks w) + max_wait /\
     remote w (i + sent w)%nat (status_query self c) = Body (PDict (ds i)) /\
     successful_answer (ds i) (sts i) PNone) ->
  clock w (S n + ticks w)%nat <= clock w (ticks w) + max_wait ->
  remote w (n + sent w)%nat (status_query self c) = Body (PDict d) ->
  successful_answer d st v ->
  v <> PNone ->
  exists w',
    register_code_received_callback fuel self cb r max_wait w
      = Some (invoke cb r w') /\
    heap w' = <[r := merged c st v]> (heap w) /\
    polls (trace w') = (S n + polls (trace w))%nat /\
    sleeps (trace w') = (n + sleeps (trace w))%nat /\
    callbacks (trace w') = callbacks (trace w) /\
    sent w' = (S n + sent w)%nat /\
    (forall x w4,
       call cb r (snd (emit (EvCallback (iscoroutinefunction cb) r) w')) = (Return x, w4) ->
       register_code_received_callback fuel self cb r max_wait w = Some (Return tt, w4)) /\
    (forall e w4,
       call cb r (snd (emit (EvCallback (iscoroutinefunction cb) r) w')) = (Raise e, w4) ->
       register_code_received_callback fuel self cb r max_wait w = Some (Raise e, w4)).
Proof.
  intros Hfuel Hr Hrange Hall Hearly Hb Ha Hv.
  assert (Hex : exists w',
             register_code_received_callback fuel self cb r max_wait w
               = Some (invoke cb r w') /\
             heap w' = <[r := merged c st v]> (heap w) /\
             polls (trace w') = (S n + polls (trace w))%nat /\
             sleeps (trace w') = (n + sleeps (trace w))%nat /\
             callbacks (trace w') = callbacks (trace w) /\
             sent w' = (S n + sent w)%nat).
  { replace fuel with (n + S (fuel - S n))%nat by lia.
    unfold register_code_received_callback, datetime_now.
    match goal with
    | |- context [poll_until_code _ self r ?st max_wait ?w0] => set (w0' := w0)
    end.
    destruct (poll_until_code_waits self r _ max_wait Hrange n (S (fuel - S n))
                c ds sts w0')
      as (w1 & Hrun & Hck & Hrem & Htk & Hsn & Hhp & Hp & Hsl & Hcb).
    { exact Hr. }
    { intros i Hi. destruct (Hall i Hi) as (Hci & Hbi & Hai).
      cbn [w0' clock ticks remote sent]. rewrite Nat.add_succ_r. auto. }
    rewrite Hrun. cbn [poll_until_code].
    set (c1 := match n with O => c | S m => merged c (sts m) PNone end).
    assert (Hr1 : heap w1 !! r = Some c1)
      by (rewrite Hhp; now apply waited_context).
    assert (Hq : status_query self c1 = status_query self c)
      by (subst c1; now destruct n).
    rewrite (poll_once_in_time self r _ max_wait Hrange c1 d st v w1 Hr1);
      [|rewrite Hck, Htk; cbn [w0' clock ticks]; now rewrite Nat.add_succ_r
       |rewrite Hrem, Hsn, Hq; exact Hb
       |exact Ha].
    assert (Hurl : is_request_to "get_activation_status"
                     (EvRequest (status_query self c1)) = true) by reflexivity.
    destruct v; try congruence;
      (eexists; split; [reflexivity|]; cbn [heap trace sent];
       unfold polls, sleeps, callbacks in *; rewrite !count_events_app;
       cbn [count_events is_sleep is_callback app]; rewrite Hurl;
       cbn [is_request_to]; rewrite Hp, Hsl, Hcb, Hsn, Hhp;
       cbn [w0' trace sent heap];
       (split; [subst c1; destruct n; cbn [merged phone_number activation_id];
                rewrite ?list_insert_insert_eq; reflexivity|]);
       repeat split; lia). }
  destruct Hex as (w' & Hrun & Hh & Hp & Hsl & Hcb & Hsn).
  exists w'. repeat (split; [assumption|]).
  split; intros x w4 Hcall; rewrite Hrun; f_equal; unfold invoke;
    destruct (iscoroutinefunction cb); unfold bind, emit in *;
    cbn [snd] in Hcall; rewrite Hcall; reflexivity.
Qed.

(** One poll without a code, then the code; the callback is a coroutine
    function that raises. *)
Lemma wait_ends_with_the_code_example :
  exists w4,
    register_code_received_callback 2 example_client
      {| iscoroutinefunction := true; call := fun _ => raise (KeyError "boom") |}
      0%nat default_max_wait
      (example_world [example_context]
         [example_time; example_time + 1; example_time + 5000002]
         [Body (PDict answer_waiting); Body (PDict answer_code)])
    = Some (Raise (KeyError "boom"), w4) /\
    heap w4 = [merged example_context StatusOk (PInt 4711)].
Proof.
  destruct (wait_ends_with_the_code 1 2 example_client
              {| iscoroutinefunction := true;
                 call := fun _ => raise (KeyError "boom") |}
              0%nat example_context default_max_wait
              (example_world [example_context]
                 [example_time; example_time + 1; example_time + 5000002]
                 [Body (PDict answer_waiting); Body (PDict answer_code)])
              (fun _ => answer_waiting) (fun _ => WaitingForCode)
              answer_code StatusOk (PInt 4711))
    as (w' & _ & Hh & _ & _ & _ & _ & _ & Hraise).
  - lia.
  - reflexivity.
  - vm_compute. split; discriminate.
  - intros i Hi. assert (i = O) as -> by lia.
    split; [vm_compute; discriminate|]. split; [reflexivity|].
    split; [reflexivity|]. split; [|reflexivity]. eexists. split; reflexivity.
  - vm_compute. discriminate.
  - reflexivity.
  - split; [reflexivity|]. split; [|reflexivity]. eexists. split; reflexivity.
  - discriminate.
  - eexists. split; [apply Hraise; reflexivity|]. exact Hh.
Defined.

(** X15: when the first [n] polls are answered in time without a code and
    the next one fails, because the transport fails or because the remote
    service rejects the query, the call raises that failure at once: no
    further sleep, no retry, no callback. *)
Theorem failed_poll_aborts_the_wait (n fuel : nat) (self : GetAltsClient)
    (cb : callback) (r : ref) (c : ActivationContext) (max_wait : Z) (w : world)
    (ds : nat -> list (string * pyval)) (sts : nat -> Status) (e : exn) :
  (n < fuel)%nat ->
  heap w !! r = Some c ->
  0 <= clock w (ticks w) + max_wait <= datetime_max ->
  (forall i, (i < n)%nat ->
     clock w (S i + ticks w)%nat <= clock w (ticks w) + max_wait /\
     remote w (i + sent w)%nat (status_query self c) = Body (PDict (ds i)) /\
     successful_answer (ds i) (sts i) PNone) ->
  clock w (S n + ticks w)%nat <= clock w (ticks w) + max_wait ->
  (exists f,
     remote w (n + sent w)%nat (status_query self c) = Failure f /\
     e = TransportError f) \/
  (exists d x,
     remote w (n + sent w)%nat (status_query self c) = Body (PDict d) /\
     dict_lookup "error" d = Some x /\ e = GetAltsAPIError x) ->
  exists w',
    register_code_received_callback fuel self cb r max_wait w = Some (Raise e, w') /\
    polls (trace w') = (S n + polls (trace w))%nat /\
    sleeps (trace w') = (n + sleeps (trace w))%nat /\
    callbacks (trace w') = callbacks (trace w) /\
    sent w' = (S n + sent w)%nat /\
    heap w' = match n with
              | O => heap w
              | S m => <[r := merged c (sts m) PNone]> (heap w)
              end.
Proof.
  intros Hfuel Hr Hrange Hall Hearly Hfail.
  replace fuel with (n + S (fuel - S n))%nat by lia.
  unfold register_code_received_callback, datetime_now.
  match goal with
  | |- context [poll_until_code _ self r ?st max_wait ?w0] => set (w0' := w0)
  end.
  destruct (poll_until_code_waits self r _ max_wait Hrange n (S (fuel - S n))
              c ds sts w0')
    as (w1 & Hrun & Hck & Hrem & Htk & Hsn & Hhp & Hp & Hsl & Hcb).
  { exact Hr. }
  { intros i Hi. destruct (Hall i Hi) as (Hci & Hbi & Hai).
    cbn [w0' clock ticks remote sent]. rewrite Nat.add_succ_r. auto. }
  rewrite Hrun. cbn [poll_until_code].
  set (c1 := match n with O => c | S m => merged c (sts m) PNone end).
  assert (Hr1 : heap w1 !! r = Some c1)
    by (rewrite Hhp; now apply waited_context).
  assert (Hq : status_query self c1 = status_query self c)
    by (subst c1; now destruct n).
  set (w2 := {| heap := heap w1; clock := clock w1; ticks := S (ticks w1);
                remote := remote w1; sent := sent w1;
                trace := trace w1 ++ [EvLog InfoCheckingActivationStatus] |}).
  assert (Hfailed : get_activation_status self r w2 =
            (Raise e,
             {| heap := heap w1; clock := clock w1; ticks := S (ticks w1);
                remote := remote w1; sent := S (sent w1);
                trace := (trace w1 ++ [EvLog InfoCheckingActivationStatus]) ++
                  [EvLog (DebugMakingRequest "get_activation_status"
                            (Some [("activation_id", activation_id c1)]));
                   EvRequest (status_query self c1)] |})).
  { rewrite (get_activation_status_exchange self r c1 w2 Hr1).
    destruct Hfail as [(f & Hb & ->) | (d & x & Hb & Hx & ->)].
    - unfold exchange. rewrite bind_Raise with (e := TransportError f)
        (w' := {| heap := heap w1; clock := clock w1; ticks := S (ticks w1);
                  remote := remote w1; sent := S (sent w1);
                  trace := (trace w1 ++ [EvLog InfoCheckingActivationStatus]) ++
                    [EvLog (DebugMakingRequest "get_activation_status"
                              (Some [("activation_id", activation_id c1)]));
                     EvRequest (status_query self c1)] |}); [reflexivity|].
      apply _get_failed. cbn [w2 remote sent]. fold (status_query self c1).
      rewrite Hrem, Hsn, Hq. exact Hb.
    - apply exchange_rejected with (d := d); [|exact Hx].
      cbn [w2 remote sent]. fold (status_query self c1).
      rewrite Hrem, Hsn, Hq. exact Hb. }
  assert (Hcheck : clock w1 (ticks w1) <= clock w (ticks w) + max_wait)
    by (rewrite Hck, Htk; cbn [w0' clock ticks]; now rewrite Nat.add_succ_r).
  rewrite (poll_once_poll_raises self r _ max_wait w1 _ e Hrange Hcheck Hfailed).
  assert (Hurl : is_request_to "get_activation_status"
                   (EvRequest (status_query self c1)) = true) by reflexivity.
  eexists. split; [reflexivity|]. cbn [heap trace sent].
  unfold polls, sleeps, callbacks in *. rewrite !count_events_app.
  cbn [count_events is_sleep is_callback app]. rewrite Hurl.
  cbn [is_request_to]. rewrite Hp, Hsl, Hcb, Hsn, Hhp.
  cbn [w0' trace sent heap]. repeat split; lia.
Qed.

Lemma failed_poll_aborts_the_wait_example :
  exists w',
    register_code_received_callback 2 example_client example_callback 0%nat
      default_max_wait
      (example_world [example_context]
         [example_time; example_time + 1; example_time + 5000002]
         [Body (PDict answer_waiting)])
    = Some (Raise (TransportError TimeoutError), w') /\
    polls (trace w') = 2%nat /\ sleeps (trace w') = 1%nat /\
    callbacks (trace w') = 0%nat /\ sent w' = 2%nat /\
    heap w' = [merged example_context WaitingForCode PNone].
Proof.
  refine (failed_poll_aborts_the_wait 1 2 example_client example_callback 0%nat
            example_context default_max_wait
            (example_world [example_context]
               [example_time; example_time + 1; example_time + 5000002]
               [Body (PDict answer_waiting)])
            (fun _ => answer_waiting) (fun _ => WaitingForCode)
            (TransportError TimeoutError) _ eq_refl _ _ _ _).
  - lia.
  - vm_compute. split; discriminate.
  - intros i Hi. assert (i = O) as -> by lia.
    split; [vm_compute; discriminate|]. split; [reflexivity|].
    split; [reflexivity|]. split; [|reflexivity]. eexists. split; reflexivity.
  - vm_compute. discriminate.
  - left. exists TimeoutError. split; reflexivity.
Defined.

(** X16: when the start time plus [max_wait] is not a [datetime] (before
    year 1 or after year 9999, as with [timedelta.max]), the first deadline
    check raises [OverflowError]: no request is sent, no callback invoked. *)
Theorem wait_overflows (fuel : nat) (self : GetAltsClient) (cb : callback)
    (r : ref) (max_wait : Z) (w : world) :
  (1 <= fuel)%nat ->
  ~ (0 <= clock w (ticks w) + max_wait <= datetime_max) ->
  register_code_received_callback fuel self cb r max_wait w =
    Some (Raise OverflowError,
          {| heap := heap w; clock := clock w; ticks := S (S (ticks w));
             remote := remote w; sent := sent w; trace := trace w |}).
Proof.
  intros Hfuel Hout. destruct fuel as [|fuel]; [lia|].
  unfold register_code_received_callback, datetime_now.
  cbn [poll_until_code]. unfold poll_once, bind at 1, datetime_now.
  unfold bind at 1, datetime_add. cbn [clock].
  destruct (Z.leb_spec 0 (clock w (ticks w) + max_wait));
    destruct (Z.leb_spec (clock w (ticks w) + max_wait) datetime_max);
    cbn; try reflexivity.
  destruct Hout. lia.
Qed.

(** [max_wait = timedelta.max] *)
Lemma wait_overflows_example :
  fst <$> register_code_received_callback 1 example_client example_callback 0%nat
            86399999999999999999
            (example_world [example_context] [example_time; example_time + 1] [])
    = Some (Raise OverflowError).
Proof.
  rewrite (wait_overflows 1 example_client example_callback 0%nat
             86399999999999999999
             (example_world [example_context] [example_time; example_time + 1] [])).
  - reflexivity.
  - lia.
  - vm_compute. intros [_ H]. apply H. reflexivity.
Defined.
